(** * A structured-logging facade over zerolog: model and properties

    The package under study ([package logger]) is a thin adapter around the
    [github.com/rs/zerolog] engine.  This development embeds, shallowly,

    - the part of zerolog the package calls ([Module zerolog]): levels and
      their parser, loggers as values, events as field buffers, the level
      filter, context binding;
    - [pkgerrors.MarshalStack] ([Module pkgerrors]);
    - the package itself: [New], [Level], [With], the six emission methods,
      the package-level forwarders, [ParseLevel], [ToContext],
      [FromContext] and the output options, as computations in a small
      state monad over the process state (the two atomic flags, zerolog's
      globals, the [Logger] structs reachable through pointers, and the
      log of what was written).

    Go's [int8] levels are integers in [Z]; no arithmetic is done on them,
    so no wrap-around occurs.  Strings are byte strings. *)

From Stdlib Require Import ZArith Lia Ascii String DecimalString.
From stdpp Require Import base list strings.

Open Scope Z_scope.

(** ** Go values shared by both layers *)

(** A stack frame as [runtime.Caller] reports it (function, file:line). *)
Definition Frame := string.

(** Go [error] values, by what the logging path can observe of them: the
    message, whether a further error is wrapped ([Unwrap]), and whether the
    value carries a stack trace ([StackTrace], as errors made by
    [github.com/pkg/errors] do).  A nil error is [None : option goerror]. *)
Inductive goerror : Type :=
| errorString (msg : string)
| fundamental (msg : string) (st : list Frame)
| wrapError (msg : string) (err : goerror).

(** The values of Go's [interface{}] that reach the field encoder.  Keys
    must be strings.  A value that is a (non-nil) error is told apart,
    because the encoder treats it in its own way; other values are
    rendered by the engine and are kept opaque here. *)
Inductive Value : Type :=
| VString (s : string)
| VInt (z : Z)
| VOther (repr : string)
| VError (e : goerror).

Definition Error_msg (e : goerror) : string :=
  match e with
  | errorString m => m
  | fundamental m _ => m
  | wrapError m _ => m
  end.

Definition Unwrap (e : goerror) : option goerror :=
  match e with
  | wrapError _ inner => Some inner
  | _ => None
  end.

(** The two ways a call can fail to return: it unwinds with a panic value,
    or it ends the process ([os.Exit]). *)
Inductive Stop : Type :=
| Panicked (v : string)
| Exited (code : Z).

(** [runtime.Caller skip], called by the function whose frame heads [cs]:
    frame 0 is that function, frame 1 its caller, and so on; beyond the
    bottom of the stack there is no answer. *)
Definition runtime_Caller (cs : list Frame) (skip : nat) : option Frame :=
  cs !! skip.

(** The double-quote byte. *)
Definition dquote : string := String (ascii_of_nat 34) EmptyString.

(** The line-feed byte. *)
Definition newline : string := String (ascii_of_nat 10) EmptyString.

(** [strconv.Itoa]. *)
Definition Itoa (z : Z) : string := NilZero.string_of_int (Z.to_int z).

(** ** strings.EqualFold and strconv.Atoi *)

Definition is_upper (c : ascii) : bool :=
  (65 <=? nat_of_ascii c)%nat && (nat_of_ascii c <=? 90)%nat.

Definition lower (c : ascii) : ascii :=
  if is_upper c then ascii_of_nat (nat_of_ascii c + 32) else c.

Definition byte_is (c : ascii) (n : nat) : bool := (nat_of_ascii c =? n)%nat.

(** [strings.EqualFold s t] for an ASCII [t] (the parser only compares with
    level names).  Under Unicode simple case folding an ASCII letter is
    matched by its other case and, for [s] and [k] only, by one more rune:
    U+017F (bytes C5 BF) and U+212A (bytes E2 84 AA). *)
Fixpoint EqualFold (s t : string) {struct s} : bool :=
  match s, t with
  | EmptyString, EmptyString => true
  | EmptyString, String _ _ => false
  | String _ _, EmptyString => false
  | String a s1, String b t' =>
      if Ascii.eqb (lower a) (lower b) then EqualFold s1 t'
      else
        match s1 with
        | EmptyString => false
        | String a2 s2 =>
            if byte_is a 197 && byte_is a2 191 && Ascii.eqb (lower b) "s"%char
            then EqualFold s2 t'
            else
              match s2 with
              | EmptyString => false
              | String a3 s3 =>
                  if byte_is a 226 && byte_is a2 132 && byte_is a3 170
                     && Ascii.eqb (lower b) "k"%char
                  then EqualFold s3 t'
                  else false
              end
        end
  end.

Definition is_digit (c : ascii) : bool :=
  (48 <=? nat_of_ascii c)%nat && (nat_of_ascii c <=? 57)%nat.

Fixpoint parse_digits (s : string) (acc : Z) : option Z :=
  match s with
  | EmptyString => Some acc
  | String c s' =>
      if is_digit c
      then parse_digits s' (acc * 10 + (Z.of_nat (nat_of_ascii c) - 48))
      else None
  end.

(** [strconv.Atoi]: an optional sign, then one or more decimal digits; the
    value must fit Go's 64-bit [int].  [None] is a non-nil error. *)
Definition Atoi (s : string) : option Z :=
  match s with
  | EmptyString => None
  | String c s' =>
      let neg := Ascii.eqb c "-"%char in
      let body := if neg || Ascii.eqb c "+"%char then s' else s in
      match body with
      | EmptyString => None
      | _ =>
          match parse_digits body 0 with
          | None => None
          | Some n =>
              let v := if neg then - n else n in
              if (- 2 ^ 63 <=? v) && (v <=? 2 ^ 63 - 1) then Some v else None
          end
      end
  end.

(** ** The zerolog engine, as far as the package uses it

    The engine is a library outside the repository.  What follows renders
    the functions the package calls, after the library's Go code: the
    level filter [should], the opening of an event [newEvent], the event
    builders [Fields], [Stack], [Err], [Caller] and [Msg], the logger
    builders [Level], [With], [Output], and [WithContext] and [Ctx]. *)
Module zerolog.

(** [type Level int8]. *)
Definition Level := Z.

Definition DebugLevel : Level := 0.
Definition InfoLevel : Level := 1.
Definition WarnLevel : Level := 2.
Definition ErrorLevel : Level := 3.
Definition FatalLevel : Level := 4.
Definition PanicLevel : Level := 5.
Definition NoLevel : Level := 6.
Definition Disabled : Level := 7.
Definition TraceLevel : Level := -1.

(** [Level.String], which is also the default [LevelFieldMarshalFunc]. *)
Definition Level_String (l : Level) : string :=
  if l =? TraceLevel then "trace"
  else if l =? DebugLevel then "debug"
  else if l =? InfoLevel then "info"
  else if l =? WarnLevel then "warn"
  else if l =? ErrorLevel then "error"
  else if l =? FatalLevel then "fatal"
  else if l =? PanicLevel then "panic"
  else if l =? Disabled then "disabled"
  else if l =? NoLevel then ""
  else Itoa l.

(** [zerolog.ParseLevel]: the level names, case-insensitively, then a
    decimal integer within [int8]. *)
Definition ParseLevel (levelStr : string) : Level * option goerror :=
  if EqualFold levelStr (Level_String TraceLevel) then (TraceLevel, None)
  else if EqualFold levelStr (Level_String DebugLevel) then (DebugLevel, None)
  else if EqualFold levelStr (Level_String InfoLevel) then (InfoLevel, None)
  else if EqualFold levelStr (Level_String WarnLevel) then (WarnLevel, None)
  else if EqualFold levelStr (Level_String ErrorLevel) then (ErrorLevel, None)
  else if EqualFold levelStr (Level_String FatalLevel) then (FatalLevel, None)
  else if EqualFold levelStr (Level_String PanicLevel) then (PanicLevel, None)
  else if EqualFold levelStr (Level_String Disabled) then (Disabled, None)
  else if EqualFold levelStr (Level_String NoLevel) then (NoLevel, None)
  else
    match Atoi levelStr with
    | None =>
        (NoLevel,
         Some (errorString
                 ("Unknown Level String: '" +:+ levelStr
                  +:+ "', defaulting to NoLevel")))
    | Some i =>
        if (127 <? i) || (i <? -128)
        then (NoLevel,
              Some (errorString
                      ("Out-Of-Bounds Level: '" +:+ Itoa i
                       +:+ "', defaulting to NoLevel")))
        else (i, None)
    end.

(** *** Writers, fields, loggers *)

(** The [io.Writer] values the package gives the engine. *)
Inductive Writer : Type :=
| Stdout
| FileWriter (f : nat)
| Discard
| ConsoleWriter (out : Writer)
| MultiLevelWriter (a b : Writer).

Inductive Hook : Type := timestampHook.

(** One entry of an event's buffer, tagged by the engine call that
    appended it: [FPair] is a caller-supplied key and value, the others
    are the engine's own [level], [stack], [error], [caller], [time] and
    [message] entries.  The engine writes its stack key in two places:
    [FStack] is the entry [Err] writes, with the trace of the error given
    to it; [FFieldStack] is the entry [Fields] writes after a field whose
    value is an error, followed by the trace of that error, or by nothing
    when the marshaler finds none. *)
Inductive Field : Type :=
| FLevel (l : Level)
| FPair (key : string) (val : Value)
| FStack (st : list Frame)
| FError (msg : string)
| FCaller (fr : Frame)
| FTime
| FMessage (msg : string)
| FFieldStack (st : option (list Frame)).

(** [zerolog.Logger], a value type.  Its [context] is the encoded fields
    added so far; the package adds them with [Fields] only, so they are
    kept as keys and values.  The sampler and the logger-wide stack
    switch are left out: nothing in the package sets them. *)
Record Logger : Type := mkLogger {
  w : Writer;
  level : Level;
  context : list (string * Value);
  hooks : list Hook
}.

(** The engine's package-level variables. *)
Record Globals : Type := mkGlobals {
  gLevel : Level;
  DefaultContextLogger : option Logger;
  ErrorStackMarshaler : option (option goerror -> option (list Frame))
}.

(** What the engine does when a Fatal or Panic event is finished. *)
Inductive Done : Type := doneExit | donePanic.

Definition runDone (d : option Done) (msg : string) : option Stop :=
  match d with
  | None => None
  | Some doneExit => Some (Exited 1)
  | Some donePanic => Some (Panicked msg)
  end.

(** [*zerolog.Event]; a nil event is [None : option Event]. *)
Record Event : Type := mkEvent {
  e_w : Writer;
  e_level : Level;
  buf : list Field;
  e_stack : bool;
  done : option Done;
  ch : list Hook
}.

(** One [WriteLevel] call on a writer. *)
Record Written : Type := mkWritten {
  wr_w : Writer;
  wr_level : Level;
  wr_buf : list Field
}.

(** [appendFields] on a [[]interface{}], without the stack switch: a
    trailing key without a value is dropped, and so is a pair whose key is
    not a string.  This is the form [Context.Fields] uses, since it passes
    the logger-wide stack switch, which is never set here. *)
Fixpoint fieldList (kvList : list Value) : list (string * Value) :=
  match kvList with
  | key :: val :: rest =>
      match key with
      | VString k => (k, val) :: fieldList rest
      | _ => fieldList rest
      end
  | _ => []
  end.

Definition appendFields (dst : list (string * Value)) (fields : list Value)
    : list (string * Value) :=
  dst ++ fieldList fields.

Definition pairFields (kvs : list (string * Value)) : list Field :=
  map (fun kv => FPair (fst kv) (snd kv)) kvs.

(** [zerolog.New], [Logger.Level], [Logger.Output] and the [Context]
    builders copy the logger and change one part of it. *)
Definition New (out : Writer) : Logger :=
  {| w := out; level := TraceLevel; context := []; hooks := [] |}.

Definition Logger_Level (l : Logger) (lvl : Level) : Logger :=
  {| w := w l; level := lvl; context := context l; hooks := hooks l |}.

Definition Nop : Logger := Logger_Level (New Discard) Disabled.

Definition disabledLogger : Logger := Nop.

Definition Logger_Output (l : Logger) (out : Writer) : Logger :=
  {| w := out; level := level l; context := context l; hooks := hooks l |}.

(** [zerolog.Context] is a logger being extended. *)
Definition Context := Logger.

Definition Logger_With (l : Logger) : Context := l.

Definition Context_Fields (c : Context) (fields : list Value) : Context :=
  {| w := w c; level := level c; context := appendFields (context c) fields;
     hooks := hooks c |}.

Definition Context_Timestamp (c : Context) : Context :=
  {| w := w c; level := level c; context := context c;
     hooks := hooks c ++ [timestampHook] |}.

Definition Context_Logger (c : Context) : Logger := c.

(** *** Events *)

(** [Logger.should]: an event passes when its level is below neither the
    level of the logger nor the global level.  (The writer is never nil
    here, and there is no sampler.) *)
Definition should (g : Globals) (l : Logger) (lvl : Level) : bool :=
  if (lvl <? level l) || (lvl <? gLevel g) then false else true.

(** [Event.Stack] attaches nothing: it sets the flag [Event.Err] reads. *)
Definition Event_Stack (e : option Event) : option Event :=
  match e with
  | None => None
  | Some ev =>
      Some {| e_w := e_w ev; e_level := e_level ev; buf := buf ev;
              e_stack := true; done := done ev; ch := ch ev |}
  end.

Definition Event_append (ev : Event) (fs : list Field) : Event :=
  {| e_w := e_w ev; e_level := e_level ev; buf := buf ev ++ fs;
     e_stack := e_stack ev; done := done ev; ch := ch ev |}.

(** The result of opening an event: an event (nil when the level is
    filtered out), or no return at all, because a filtered Fatal or
    Panic still runs its [done] function, with an empty message. *)
Inductive Started : Type :=
| Opened (e : option Event)
| Stopped (o : Stop).

(** [Logger.newEvent].  When [should] refuses the level, [done] is called
    with the empty message if there is one, and the event is nil.
    Otherwise the buffer starts with the level (unless [NoLevel]) and the
    fields attached to the logger. *)
Definition newEvent (g : Globals) (l : Logger) (lvl : Level)
    (d : option Done) : Started :=
  if should g l lvl then
    Opened (Some {| e_w := w l; e_level := lvl;
                    buf := (if lvl =? NoLevel then [] else [FLevel lvl])
                             ++ pairFields (context l);
                    e_stack := false; done := d; ch := hooks l |})
  else
    match runDone d "" with
    | None => Opened None
    | Some o => Stopped o
    end.

(** [Fatal] ends the process when its event is done, [Panic] panics with
    the message. *)
Definition Logger_Debug g l := newEvent g l DebugLevel None.
Definition Logger_Info g l := newEvent g l InfoLevel None.
Definition Logger_Warn g l := newEvent g l WarnLevel None.
Definition Logger_Error g l := newEvent g l ErrorLevel None.
Definition Logger_Fatal g l := newEvent g l FatalLevel (Some doneExit).
Definition Logger_Panic g l := newEvent g l PanicLevel (Some donePanic).

(** What [appendFields] writes after a value when its stack switch is
    set and a marshaler is installed: for an error value, the stack key
    and what the marshaler extracts from that error, if anything. *)
Definition fieldStack (g : Globals) (stack : bool) (val : Value) : list Field :=
  match val with
  | VError e =>
      if stack then
        match ErrorStackMarshaler g with
        | Some marshal => [FFieldStack (marshal (Some e))]
        | None => []
        end
      else []
  | _ => []
  end.

(** [appendFields] with the stack switch, as [Event.Fields] calls it. *)
Fixpoint eventFields (g : Globals) (stack : bool) (kvList : list Value)
    : list Field :=
  match kvList with
  | key :: val :: rest =>
      match key with
      | VString k =>
          FPair k val :: fieldStack g stack val ++ eventFields g stack rest
      | _ => eventFields g stack rest
      end
  | _ => []
  end.

(** [Event.Fields] passes the stack flag of the event to [appendFields]. *)
Definition Event_Fields (g : Globals) (e : option Event) (fields : list Value)
    : option Event :=
  match e with
  | None => None
  | Some ev => Some (Event_append ev (eventFields g (e_stack ev) fields))
  end.

(** [Event.Err]: with the stack flag of the event set and a marshaler
    installed, what the marshaler extracts from the error (if anything)
    goes in first; then the error's message, unless the error is nil. *)
Definition Event_Err (g : Globals) (e : option Event) (err : option goerror)
    : option Event :=
  match e with
  | None => None
  | Some ev =>
      let st :=
        if e_stack ev then
          match ErrorStackMarshaler g with
          | Some marshal =>
              match marshal err with
              | Some frames => [FStack frames]
              | None => []
              end
          | None => []
          end
        else [] in
      let er :=
        match err with
        | Some x => [FError (Error_msg x)]
        | None => []
        end in
      Some (Event_append ev (st ++ er))
  end.

Definition CallerSkipFrameCount : nat := 2.

(** The unexported [Event.caller] asks [runtime.Caller] for the frame
    [skip] levels up, and appends nothing when there is none; [cs] starts
    with its own frame. *)
Definition Event_caller (cs : list Frame) (e : option Event) (skip : nat)
    : option Event :=
  match e with
  | None => None
  | Some ev =>
      match runtime_Caller cs skip with
      | Some fr => Some (Event_append ev [FCaller fr])
      | None => Some ev
      end
  end.

(** [Event.Caller(skip)], called from the function whose frame heads
    [cs]: the given skip plus [CallerSkipFrameCount], the two frames of
    the engine itself, so that a skip of 0 names the function that called
    [Caller]. *)
Definition Event_Caller (cs : list Frame) (e : option Event) (skip : nat)
    : option Event :=
  Event_caller ("zerolog.Event.caller" :: "zerolog.Event.Caller" :: cs)
    e (skip + CallerSkipFrameCount).

Definition runHook (h : Hook) (ev : Event) : Event :=
  match h with
  | timestampHook => Event_append ev [FTime]
  end.

(** [Event.Msg]: hooks, the message unless empty, one write, then
    [done]. *)
Definition Event_Msg (e : option Event) (msg : string)
    : list Written * option Stop :=
  match e with
  | None => ([], None)
  | Some ev =>
      let ev1 := fold_left (fun acc h => runHook h acc) (ch ev) ev in
      let ev2 := if String.eqb msg "" then ev1
                 else Event_append ev1 [FMessage msg] in
      ([{| wr_w := e_w ev2; wr_level := e_level ev2; wr_buf := buf ev2 |}],
       runDone (done ev2) msg)
  end.

(** *** Binding a logger to a context *)

(** [context.Context]: the chain of values; only the engine's own key
    holds loggers. *)
Inductive GoContext : Type :=
| Background
| WithLogger (parent : GoContext) (l : Logger)
| WithValue (parent : GoContext) (key : string) (val : Value).

(** The logger stored under the engine's key, [ctx.Value(ctxKey{})]. *)
Fixpoint ctxLogger (ctx : GoContext) : option Logger :=
  match ctx with
  | Background => None
  | WithLogger _ l => Some l
  | WithValue parent _ _ => ctxLogger parent
  end.

(** [Logger.WithContext]: a logger at level [Disabled] is not stored in a
    context that holds no logger yet; the context is returned as it is. *)
Definition Logger_WithContext (l : Logger) (ctx : GoContext) : GoContext :=
  match ctxLogger ctx with
  | None => if level l =? Disabled then ctx else WithLogger ctx l
  | Some _ => WithLogger ctx l
  end.

(** [zerolog.Ctx]: the logger of the context, else
    [DefaultContextLogger] when set, else the disabled logger. *)
Definition Ctx (g : Globals) (ctx : GoContext) : Logger :=
  match ctxLogger ctx with
  | Some l => l
  | None =>
      match DefaultContextLogger g with
      | Some l => l
      | None => disabledLogger
      end
  end.

(** The engine's own initialisation. *)
Definition init : Globals :=
  {| gLevel := TraceLevel; DefaultContextLogger := None;
     ErrorStackMarshaler := None |}.

Definition SetGlobalLevel (g : Globals) (l : Level) : Globals :=
  {| gLevel := l; DefaultContextLogger := DefaultContextLogger g;
     ErrorStackMarshaler := ErrorStackMarshaler g |}.

End zerolog.

(** ** pkgerrors.MarshalStack *)
Module pkgerrors.

(** Follow [Unwrap] to the first error that carries a stack trace;
    without one (or for a nil error) the result is nil.  The frames stand
    for the marshaled trace. *)
Fixpoint stackOf (e : goerror) : option (list Frame) :=
  match e with
  | errorString _ => None
  | fundamental _ st => Some st
  | wrapError _ inner => stackOf inner
  end.

Definition MarshalStack (err : option goerror) : option (list Frame) :=
  match err with
  | None => None
  | Some e => stackOf e
  end.

End pkgerrors.

(** ** The package: state and effects *)

(** [type Level int8], converted to and from the engine's level type
    without change. *)
Definition Level := Z.

Definition DebugLevel : Level := zerolog.DebugLevel.
Definition InfoLevel : Level := zerolog.InfoLevel.
Definition WarnLevel : Level := zerolog.WarnLevel.
Definition ErrorLevel : Level := zerolog.ErrorLevel.
Definition FatalLevel : Level := zerolog.FatalLevel.
Definition PanicLevel : Level := zerolog.PanicLevel.

Definition minAllowedLevel : Level := DebugLevel.
Definition maxAllowedLevel : Level := PanicLevel.

(** What the process has put out: an event handed to a writer, or text
    printed with [fmt.Printf]. *)
Inductive Output : Type :=
| Logged (wr : zerolog.Written)
| Printed (s : string).

(** A [*Logger] is the address of a [Logger] struct; the struct has one
    field, [l], a pointer to an engine logger that is never written
    through, hence kept as a value. *)
Definition Logger := nat.

Record State : Type := mkState {
  stacktraceEnabled : bool;
  callerEnabled : bool;
  globals : zerolog.Globals;
  heap : list zerolog.Logger;
  out : list Output
}.

Definition set_stacktraceEnabled (b : bool) (s : State) : State :=
  {| stacktraceEnabled := b; callerEnabled := callerEnabled s;
     globals := globals s; heap := heap s; out := out s |}.

Definition set_callerEnabled (b : bool) (s : State) : State :=
  {| stacktraceEnabled := stacktraceEnabled s; callerEnabled := b;
     globals := globals s; heap := heap s; out := out s |}.

Definition set_globals (g : zerolog.Globals) (s : State) : State :=
  {| stacktraceEnabled := stacktraceEnabled s; callerEnabled := callerEnabled s;
     globals := g; heap := heap s; out := out s |}.

Definition set_heap (h : list zerolog.Logger) (s : State) : State :=
  {| stacktraceEnabled := stacktraceEnabled s; callerEnabled := callerEnabled s;
     globals := globals s; heap := h; out := out s |}.

Definition set_out (o : list Output) (s : State) : State :=
  {| stacktraceEnabled := stacktraceEnabled s; callerEnabled := callerEnabled s;
     globals := globals s; heap := heap s; out := o |}.

(** The result of running a call: a value and the new state, or a stop. *)
Inductive Res (A : Type) : Type :=
| Ret (a : A) (s : State)
| Halt (o : Stop) (s : State).
Arguments Ret {A} a s.
Arguments Halt {A} o s.

Definition M (A : Type) : Type := State -> Res A.

Global Instance M_ret : MRet M := fun A a s => Ret a s.

Global Instance M_bind : MBind M := fun A B f m s =>
  match m s with
  | Ret a s' => f a s'
  | Halt o s' => Halt o s'
  end.

Definition get : M State := fun s => Ret s s.
Definition modify (f : State -> State) : M unit := fun s => Ret tt (f s).
Definition halt {A} (o : Stop) : M A := fun s => Halt o s.

Definition final {A} (r : Res A) : State :=
  match r with
  | Ret _ s => s
  | Halt _ s => s
  end.

Definition stopped {A} (r : Res A) : option Stop :=
  match r with
  | Ret _ _ => None
  | Halt o _ => Some o
  end.

Definition nilDeref : Stop :=
  Panicked "runtime error: invalid memory address or nil pointer dereference".

(** Reading the field [l] of the struct behind a [*Logger]. *)
Definition deref (l : Logger) : M zerolog.Logger := fun s =>
  match heap s !! l with
  | Some z => Ret z s
  | None => Halt nilDeref s
  end.

(** [&Logger{l: &zl}]. *)
Definition alloc (z : zerolog.Logger) : M Logger := fun s =>
  Ret (length (heap s)) (set_heap (heap s ++ [z]) s).

(** [l.l = &zl]. *)
Definition store (l : Logger) (z : zerolog.Logger) : M unit := fun s =>
  match heap s !! l with
  | Some _ => Ret tt (set_heap (<[l := z]> (heap s)) s)
  | None => Halt nilDeref s
  end.

(** An opened event, or the stop a filtered Fatal or Panic causes. *)
Definition started (st : zerolog.Started) : M (option zerolog.Event) :=
  match st with
  | zerolog.Opened e => mret e
  | zerolog.Stopped o => halt o
  end.

(** The effect of [Event.Msg]: the write, then the stop if there is one. *)
Definition finished (r : list zerolog.Written * option Stop) : M unit := fun s =>
  let s' := set_out (out s ++ map Logged (fst r)) s in
  match snd r with
  | None => Ret tt s'
  | Some o => Halt o s'
  end.

Definition Printf (text : string) : M unit :=
  modify (fun s => set_out (out s ++ [Printed text]) s).

(** ** The package: construction, derivation, global controls *)

Definition Option := Logger -> M unit.

Fixpoint applyOptions (opts : list Option) (l : Logger) : M unit :=
  match opts with
  | [] => mret tt
  | opt :: rest => opt l ;; applyOptions rest l
  end.

Definition New (level : Level) (opts : list Option) : M Logger :=
  let zl := zerolog.New zerolog.Stdout in
  let zl := zerolog.Logger_Level zl level in
  let zl := zerolog.Context_Logger
              (zerolog.Context_Timestamp (zerolog.Logger_With zl)) in
  l ← alloc zl;
  applyOptions opts l ;;
  mret l.

Definition init : M unit :=
  modify (fun s =>
    set_globals
      {| zerolog.gLevel := zerolog.gLevel (globals s);
         zerolog.DefaultContextLogger := zerolog.DefaultContextLogger (globals s);
         zerolog.ErrorStackMarshaler := Some pkgerrors.MarshalStack |} s) ;;
  l ← New ErrorLevel [];
  z ← deref l;
  modify (fun s =>
    set_globals
      {| zerolog.gLevel := zerolog.gLevel (globals s);
         zerolog.DefaultContextLogger := Some z;
         zerolog.ErrorStackMarshaler := zerolog.ErrorStackMarshaler (globals s) |} s).

Definition SetGlobalLevel (level : Level) : M unit :=
  modify (fun s => set_globals (zerolog.SetGlobalLevel (globals s) level) s).

Definition SetStacktraceEnabled (enabled : bool) : M unit :=
  modify (set_stacktraceEnabled enabled).

Definition SetCallerEnabled (enabled : bool) : M unit :=
  modify (set_callerEnabled enabled).

Definition Logger_Level (l : Logger) (level : Level) : M Logger :=
  z ← deref l;
  let zl := zerolog.Logger_Level z level in
  alloc zl.

Definition Logger_With (l : Logger) (kvs : list Value) : M Logger :=
  z ← deref l;
  let zl := zerolog.Context_Logger
              (zerolog.Context_Fields (zerolog.Logger_With z) kvs) in
  alloc zl.

(** ** The package: emission *)

(** In the functions below [cs] is the call stack of the caller, the frame
    of the call site first; each function puts its own frame on top when
    it calls on. *)

Definition withFieldsAndCaller (cs : list Frame) (event : option zerolog.Event)
    (kvs : list Value) : M (option zerolog.Event) :=
  s ← get;
  let event := if (0 <? length kvs)%nat
               then zerolog.Event_Fields (globals s) event kvs
               else event in
  let event := if callerEnabled s
               then zerolog.Event_Caller ("logger.withFieldsAndCaller" :: cs) event 3
               else event in
  mret event.

Definition Logger_Debug (cs : list Frame) (l : Logger) (msg : string)
    (kvs : list Value) : M unit :=
  z ← deref l;
  s ← get;
  event ← started (zerolog.Logger_Debug (globals s) z);
  event ← withFieldsAndCaller ("logger.Logger.Debug" :: cs) event kvs;
  finished (zerolog.Event_Msg event msg).

Definition Logger_Info (cs : list Frame) (l : Logger) (msg : string)
    (kvs : list Value) : M unit :=
  z ← deref l;
  s ← get;
  event ← started (zerolog.Logger_Info (globals s) z);
  event ← withFieldsAndCaller ("logger.Logger.Info" :: cs) event kvs;
  finished (zerolog.Event_Msg event msg).

Definition Logger_Warn (cs : list Frame) (l : Logger) (msg : string)
    (kvs : list Value) : M unit :=
  z ← deref l;
  s ← get;
  event ← started (zerolog.Logger_Warn (globals s) z);
  event ← withFieldsAndCaller ("logger.Logger.Warn" :: cs) event kvs;
  finished (zerolog.Event_Msg event msg).

Definition Logger_Error (cs : list Frame) (l : Logger) (err : option goerror)
    (msg : string) (kvs : list Value) : M unit :=
  z ← deref l;
  s ← get;
  event ← started (zerolog.Logger_Error (globals s) z);
  let event := if stacktraceEnabled s then zerolog.Event_Stack event
               else event in
  let event := zerolog.Event_Err (globals s) event err in
  event ← withFieldsAndCaller ("logger.Logger.Error" :: cs) event kvs;
  finished (zerolog.Event_Msg event msg).

Definition Logger_Fatal (cs : list Frame) (l : Logger) (msg : string)
    (kvs : list Value) : M unit :=
  z ← deref l;
  s ← get;
  event ← started (zerolog.Logger_Fatal (globals s) z);
  event ← withFieldsAndCaller ("logger.Logger.Fatal" :: cs) event kvs;
  finished (zerolog.Event_Msg event msg).

Definition Logger_Panic (cs : list Frame) (l : Logger) (msg : string)
    (kvs : list Value) : M unit :=
  z ← deref l;
  s ← get;
  event ← started (zerolog.Logger_Panic (globals s) z);
  event ← withFieldsAndCaller ("logger.Logger.Panic" :: cs) event kvs;
  finished (zerolog.Event_Msg event msg).

(** ** The package: contexts and the package-level functions *)

Definition ToContext (ctx : zerolog.GoContext) (logger : Logger)
    : M zerolog.GoContext :=
  z ← deref logger;
  mret (zerolog.Logger_WithContext z ctx).

Definition FromContext (ctx : zerolog.GoContext) : M Logger :=
  s ← get;
  alloc (zerolog.Ctx (globals s) ctx).

Definition Debug (cs : list Frame) (ctx : zerolog.GoContext) (msg : string)
    (kvs : list Value) : M unit :=
  l ← FromContext ctx;
  Logger_Debug ("logger.Debug" :: cs) l msg kvs.

Definition Info (cs : list Frame) (ctx : zerolog.GoContext) (msg : string)
    (kvs : list Value) : M unit :=
  l ← FromContext ctx;
  Logger_Info ("logger.Info" :: cs) l msg kvs.

Definition Warn (cs : list Frame) (ctx : zerolog.GoContext) (msg : string)
    (kvs : list Value) : M unit :=
  l ← FromContext ctx;
  Logger_Warn ("logger.Warn" :: cs) l msg kvs.

Definition Error (cs : list Frame) (ctx : zerolog.GoContext)
    (err : option goerror) (msg : string) (kvs : list Value) : M unit :=
  l ← FromContext ctx;
  Logger_Error ("logger.Error" :: cs) l err msg kvs.

Definition Fatal (cs : list Frame) (ctx : zerolog.GoContext) (msg : string)
    (kvs : list Value) : M unit :=
  l ← FromContext ctx;
  Logger_Fatal ("logger.Fatal" :: cs) l msg kvs.

Definition Panic (cs : list Frame) (ctx : zerolog.GoContext) (msg : string)
    (kvs : list Value) : M unit :=
  l ← FromContext ctx;
  Logger_Panic ("logger.Panic" :: cs) l msg kvs.

(** ** The package: parsing a level *)

Definition ParseLevel (levelStr : string) : M (Level * option goerror) :=
  let '(zeroLevel, err) := zerolog.ParseLevel levelStr in
  match err with
  | Some e =>
      mret (ErrorLevel,
            Some (wrapError
                    ("cannot parse log level " +:+ dquote +:+ levelStr
                     +:+ dquote +:+ " " +:+ Error_msg e) e))
  | None =>
      let level : Level := zeroLevel in
      if level <? minAllowedLevel then
        Printf ("log level " +:+ dquote +:+ levelStr +:+ dquote
                +:+ " less than min allowed" +:+ newline) ;;
        mret (minAllowedLevel, None)
      else if maxAllowedLevel <? level then
        Printf ("log level " +:+ dquote +:+ levelStr +:+ dquote
                +:+ " greater than max allowed" +:+ newline) ;;
        mret (maxAllowedLevel, None)
      else mret (level, None)
  end.

(** ** The package: output options *)

Definition WithPlainText : Option := fun l =>
  z ← deref l;
  let zl := zerolog.Context_Logger
              (zerolog.Logger_With
                 (zerolog.Logger_Output z (zerolog.ConsoleWriter zerolog.Stdout))) in
  store l zl.

Definition WriteToFile (f : nat) : Option := fun l =>
  z ← deref l;
  let zl := zerolog.Context_Logger
              (zerolog.Logger_With
                 (zerolog.Logger_Output z
                    (zerolog.MultiLevelWriter
                       (zerolog.ConsoleWriter zerolog.Stdout)
                       (zerolog.FileWriter f)))) in
  store l zl.

(** ** The process at start *)

Definition boot : State :=
  {| stacktraceEnabled := false; callerEnabled := false;
     globals := zerolog.init; heap := []; out := [] |}.

(** The state once the package's [init] has run. *)
Definition started_state : State := final (init boot).

(** ** Vocabulary for the statements *)

(** The six emission entry points, with the error value [Error] takes. *)
Inductive Severity : Type :=
| SevDebug
| SevInfo
| SevWarn
| SevError (err : option goerror)
| SevFatal
| SevPanic.

Definition severity_level (sv : Severity) : Level :=
  match sv with
  | SevDebug => DebugLevel
  | SevInfo => InfoLevel
  | SevWarn => WarnLevel
  | SevError _ => ErrorLevel
  | SevFatal => FatalLevel
  | SevPanic => PanicLevel
  end.

(** The method of a [Logger] for a severity. *)
Definition Logger_call (sv : Severity) (cs : list Frame) (l : Logger)
    (msg : string) (kvs : list Value) : M unit :=
  match sv with
  | SevDebug => Logger_Debug cs l msg kvs
  | SevInfo => Logger_Info cs l msg kvs
  | SevWarn => Logger_Warn cs l msg kvs
  | SevError err => Logger_Error cs l err msg kvs
  | SevFatal => Logger_Fatal cs l msg kvs
  | SevPanic => Logger_Panic cs l msg kvs
  end.

(** The package-level function for a severity. *)
Definition package_call (sv : Severity) (cs : list Frame)
    (ctx : zerolog.GoContext) (msg : string) (kvs : list Value) : M unit :=
  match sv with
  | SevDebug => Debug cs ctx msg kvs
  | SevInfo => Info cs ctx msg kvs
  | SevWarn => Warn cs ctx msg kvs
  | SevError err => Error cs ctx err msg kvs
  | SevFatal => Fatal cs ctx msg kvs
  | SevPanic => Panic cs ctx msg kvs
  end.

(** The frame a package-level function adds below the method it calls. *)
Definition package_frame (sv : Severity) : Frame :=
  match sv with
  | SevDebug => "logger.Debug"
  | SevInfo => "logger.Info"
  | SevWarn => "logger.Warn"
  | SevError _ => "logger.Error"
  | SevFatal => "logger.Fatal"
  | SevPanic => "logger.Panic"
  end.

(** What the specification says a package-level function is equal to: the
    method of the same name called on [FromContext ctx] with the same
    arguments, at the same place, that is, with the same caller stack. *)
Definition forwarded_call (sv : Severity) (cs : list Frame)
    (ctx : zerolog.GoContext) (msg : string) (kvs : list Value) : M unit :=
  l ← FromContext ctx;
  Logger_call sv cs l msg kvs.

Definition severity_done (sv : Severity) : option zerolog.Done :=
  match sv with
  | SevFatal => Some zerolog.doneExit
  | SevPanic => Some zerolog.donePanic
  | _ => None
  end.

(** The two output options the package exports. *)
Inductive OutputOption : Type :=
| PlainText
| ToFile (f : nat).

Definition output_option (o : OutputOption) : Option :=
  match o with
  | PlainText => WithPlainText
  | ToFile f => WriteToFile f
  end.

Definition option_writer (o : OutputOption) : zerolog.Writer :=
  match o with
  | PlainText => zerolog.ConsoleWriter zerolog.Stdout
  | ToFile f =>
      zerolog.MultiLevelWriter (zerolog.ConsoleWriter zerolog.Stdout)
        (zerolog.FileWriter f)
  end.

(** What a run put out beyond what was there before. *)
Definition emitted {A} (m : M A) (s : State) : list Output :=
  drop (length (out s)) (out (final (m s))).

(** The level a [Logger] is configured at. *)
Definition level_of (s : State) (l : Logger) : option Level :=
  zerolog.level <$> heap s !! l.

(** The engine logger [New level] builds before options are applied. *)
Definition new_logger (level : Level) : zerolog.Logger :=
  {| zerolog.w := zerolog.Stdout; zerolog.level := level;
     zerolog.context := []; zerolog.hooks := [zerolog.timestampHook] |}.

(** The pieces of an emitted event's buffer, in the order the engine
    appends them. *)
Definition marshaledStack (g : zerolog.Globals) (err : option goerror)
    : option (list Frame) :=
  match zerolog.ErrorStackMarshaler g with
  | Some marshal => marshal err
  | None => None
  end.

Definition stack_fields (s : State) (sv : Severity) : list zerolog.Field :=
  match sv with
  | SevError err =>
      if stacktraceEnabled s then
        match marshaledStack (globals s) err with
        | Some frames => [zerolog.FStack frames]
        | None => []
        end
      else []
  | _ => []
  end.

Definition error_fields (sv : Severity) : list zerolog.Field :=
  match sv with
  | SevError (Some e) => [zerolog.FError (Error_msg e)]
  | _ => []
  end.

(** The caller entry of a method called with caller stack [cs]. *)
Definition caller_fields (s : State) (cs : list Frame) : list zerolog.Field :=
  if callerEnabled s then
    match cs !! 1%nat with
    | Some fr => [zerolog.FCaller fr]
    | None => []
    end
  else [].

Definition hook_fields (hs : list zerolog.Hook) : list zerolog.Field :=
  map (fun _ => zerolog.FTime) hs.

Definition message_fields (msg : string) : list zerolog.Field :=
  if String.eqb msg "" then [] else [zerolog.FMessage msg].

(** The stack flag of the event when [withFieldsAndCaller] gets it: set by
    [Error] alone, when the stack-trace flag is set. *)
Definition stack_flag (s : State) (sv : Severity) : bool :=
  match sv with
  | SevError _ => stacktraceEnabled s
  | _ => false
  end.

(** The entries for the fields of the call. *)
Definition call_fields (s : State) (sv : Severity) (kvs : list Value)
    : list zerolog.Field :=
  zerolog.eventFields (globals s) (stack_flag s sv) kvs.

Definition event_buf (s : State) (z : zerolog.Logger) (sv : Severity)
    (cs : list Frame) (msg : string) (kvs : list Value) : list zerolog.Field :=
  zerolog.FLevel (severity_level sv) :: zerolog.pairFields (zerolog.context z)
  ++ stack_fields s sv ++ error_fields sv
  ++ call_fields s sv kvs
  ++ caller_fields s cs ++ hook_fields (zerolog.hooks z) ++ message_fields msg.

Definition is_stack_field (f : zerolog.Field) : bool :=
  match f with
  | zerolog.FStack _ | zerolog.FFieldStack _ => true
  | _ => false
  end.

Definition is_error_field (f : zerolog.Field) : bool :=
  match f with zerolog.FError _ => true | _ => false end.

Definition is_caller_field (f : zerolog.Field) : bool :=
  match f with zerolog.FCaller _ => true | _ => false end.

(** ** The calls a program can make, and the states it can reach *)

Inductive Call : Type :=
| CallNew (level : Level) (os : list OutputOption)
| CallSetGlobalLevel (level : Level)
| CallSetStacktraceEnabled (enabled : bool)
| CallSetCallerEnabled (enabled : bool)
| CallLevel (l : Logger) (level : Level)
| CallWith (l : Logger) (kvs : list Value)
| CallMethod (sv : Severity) (cs : list Frame) (l : Logger) (msg : string)
    (kvs : list Value)
| CallPackage (sv : Severity) (cs : list Frame) (ctx : zerolog.GoContext)
    (msg : string) (kvs : list Value)
| CallParseLevel (levelStr : string)
| CallToContext (ctx : zerolog.GoContext) (l : Logger)
| CallFromContext (ctx : zerolog.GoContext)
| CallOption (o : OutputOption) (l : Logger).

Definition exec (c : Call) (s : State) : State :=
  match c with
  | CallNew level os => final (New level (map output_option os) s)
  | CallSetGlobalLevel level => final (SetGlobalLevel level s)
  | CallSetStacktraceEnabled b => final (SetStacktraceEnabled b s)
  | CallSetCallerEnabled b => final (SetCallerEnabled b s)
  | CallLevel l level => final (Logger_Level l level s)
  | CallWith l kvs => final (Logger_With l kvs s)
  | CallMethod sv cs l msg kvs => final (Logger_call sv cs l msg kvs s)
  | CallPackage sv cs ctx msg kvs => final (package_call sv cs ctx msg kvs s)
  | CallParseLevel levelStr => final (ParseLevel levelStr s)
  | CallToContext ctx l => final (ToContext ctx l s)
  | CallFromContext ctx => final (FromContext ctx s)
  | CallOption o l => final (output_option o l s)
  end.

(** States the process can be in after the package's [init]. *)
Inductive reachable : State -> Prop :=
| reachable_start : reachable started_state
| reachable_step (s : State) (c : Call) :
    reachable s -> reachable (exec c s).

(** The states used as concrete inputs below. *)
Definition one_logger (level : Level) : State :=
  final (New level [] started_state).

(** Two states in which emission through [l] looks the same: what is
    written and how the call ends. *)
Definition same_behaviour (l : Logger) (s s' : State) : Prop :=
  heap s' !! l = heap s !! l /\
  forall sv cs msg kvs,
    emitted (Logger_call sv cs l msg kvs) s' = emitted (Logger_call sv cs l msg kvs) s /\
    stopped (Logger_call sv cs l msg kvs s') = stopped (Logger_call sv cs l msg kvs s).

(** Everything but the heap and the output is the same. *)
Definition same_settings (s s' : State) : Prop :=
  stacktraceEnabled s' = stacktraceEnabled s /\
  callerEnabled s' = callerEnabled s /\
  globals s' = globals s.

(** A state with one Logger (address 1) at [InfoLevel] and the global
    level raised to [ErrorLevel]. *)
Definition floor_state : State :=
  final (SetGlobalLevel ErrorLevel (one_logger InfoLevel)).

(** The engine logger an output option leaves behind. *)
Definition rebound (o : OutputOption) (z : zerolog.Logger) : zerolog.Logger :=
  zerolog.Logger_Output z (option_writer o).

(** A state with one Logger (address 1) at [DebugLevel], and the same after
    [WithPlainText] was applied to that Logger. *)
Definition json_state : State := one_logger DebugLevel.

Definition plain_state : State := final (WithPlainText 1%nat json_state).

(** [json_state] with stack capture, respectively caller annotation,
    switched on. *)
Definition stack_on_state : State := final (SetStacktraceEnabled true json_state).

Definition caller_on_state : State := final (SetCallerEnabled true json_state).

(** A context that carries the Logger of [json_state]. *)
Definition bound_ctx : zerolog.GoContext :=
  zerolog.WithLogger zerolog.Background (new_logger DebugLevel).

(** An error that carries a stack trace, and one that wraps it. *)
Definition traced_error : goerror :=
  fundamental "test error" ["logger_test.go:178"; "testing.go:1595"].

(** A state with one Logger (address 1) at the engine's [Disabled] level. *)
Definition disabled_state : State := one_logger zerolog.Disabled.

(** ** Further code: the unexported option and the test helpers *)

(** The unexported [test] of the options file: the body of the function
    [WithPlainText] returns, as a function of its own. *)
Definition test (l : Logger) : M unit :=
  z ← deref l;
  let zl := zerolog.Context_Logger
              (zerolog.Logger_With
                 (zerolog.Logger_Output z (zerolog.ConsoleWriter zerolog.Stdout))) in
  store l zl.

(** The options of the test file; [buf] is the buffer the test reads
    back, any writer here. *)
Definition testTextPlainEnable (buf : zerolog.Writer) : Option := fun l =>
  z ← deref l;
  let zl := zerolog.Context_Logger
              (zerolog.Logger_With
                 (zerolog.Logger_Output z (zerolog.ConsoleWriter buf))) in
  store l zl.

Definition testJsonEnable (buf : zerolog.Writer) : Option := fun l =>
  z ← deref l;
  let zl := zerolog.Context_Logger
              (zerolog.Logger_With (zerolog.Logger_Output z buf)) in
  store l zl.

(** [getTestData] and [getTestDataTextPlain]; the buffer they create is
    given as [buf], and handed back with the context. *)
Definition getTestData (buf : zerolog.Writer)
    : M (zerolog.GoContext * zerolog.Writer) :=
  logger ← New DebugLevel [testJsonEnable buf];
  ctx ← ToContext zerolog.Background logger;
  mret (ctx, buf).

Definition getTestDataTextPlain (buf : zerolog.Writer)
    : M (zerolog.GoContext * zerolog.Writer) :=
  logger ← New DebugLevel [testTextPlainEnable buf];
  ctx ← ToContext zerolog.Background logger;
  mret (ctx, buf).

(** ** Further vocabulary *)

(** The engine logger behind the Logger a run returns. *)
Definition result_logger (m : M Logger) (s : State) : option zerolog.Logger :=
  match m s with
  | Ret l s' => heap s' !! l
  | Halt _ _ => None
  end.

(** The writer [New] ends with: that of its last option, standard output
    without options. *)
Definition writer_after (os : list OutputOption) : zerolog.Writer :=
  match last os with
  | Some o => option_writer o
  | None => zerolog.Stdout
  end.

(** The engine logger the test helpers build around [buf]. *)
Definition test_logger (out : zerolog.Writer) : zerolog.Logger :=
  {| zerolog.w := out; zerolog.level := DebugLevel;
     zerolog.context := []; zerolog.hooks := [zerolog.timestampHook] |}.

(** [json_state] with the global level raised to [Disabled]. *)
Definition silent_state : State :=
  final (SetGlobalLevel zerolog.Disabled json_state).

(** [stack_on_state] with a Logger call in mind whose field list holds an
    error that carries a trace. *)
Definition cause_fields : list Value := [VString "cause"; VError traced_error].

(** An output with the caller entry of its event left out. *)
Definition without_caller (o : Output) : Output :=
  match o with
  | Logged wr =>
      Logged (zerolog.mkWritten (zerolog.wr_w wr) (zerolog.wr_level wr)
                (List.filter (fun f => negb (is_caller_field f))
                   (zerolog.wr_buf wr)))
  | Printed p => Printed p
  end.

(** ** The shape of an emitted event *)

Arguments zerolog.Event_Msg : simpl never.
Arguments withFieldsAndCaller : simpl never.
Arguments finished : simpl never.

(** Lists of keys and values are taken two entries at a time. *)
Lemma pairs_ind (P : list Value -> Prop) :
  P [] -> (forall x, P [x]) ->
  (forall key val rest, P rest -> P (key :: val :: rest)) ->
  forall kvs, P kvs.
Proof.
  intros Hnil Hone Hstep kvs.
  assert (H : P kvs /\ forall x, P (x :: kvs)); [|by destruct H].
  induction kvs as [|y kvs [IH1 IH2]]; [by split|].
  split; [apply IH2|]. intros x. by apply Hstep.
Qed.

(** Without the stack switch the event's fields are the pairs alone. *)
Lemma eventFields_off (g : zerolog.Globals) (kvs : list Value) :
  zerolog.eventFields g false kvs = zerolog.pairFields (zerolog.fieldList kvs).
Proof.
  induction kvs as [|x|key val rest IH] using pairs_ind; [done|done|].
  simpl. destruct key; try done. simpl. rewrite IH. by destruct val.
Qed.

(** The fields of a call hold pairs and stack keys, nothing else. *)
Lemma in_eventFields (g : zerolog.Globals) (b : bool) (kvs : list Value)
    (f : zerolog.Field) :
  In f (zerolog.eventFields g b kvs) ->
  (exists k v, f = zerolog.FPair k v) \/ (exists o, f = zerolog.FFieldStack o).
Proof.
  induction kvs as [|x|key val rest IH] using pairs_ind; [done|done|].
  simpl. destruct key; try done. simpl. intros [<-|Hin]; [left; eauto|].
  apply in_app_iff in Hin as [Hin|Hin]; [|by apply IH].
  unfold zerolog.fieldStack in Hin. destruct val; try done.
  destruct b; [|done]. destruct (zerolog.ErrorStackMarshaler g); [|done].
  destruct Hin as [<-|[]]. right. eauto.
Qed.

(** A stack key among the fields of a call stands right after a pair whose
    value is an error, and holds what the marshaler extracts from it. *)
Lemma fieldStack_in_eventFields (g : zerolog.Globals) (b : bool)
    (kvs : list Value) (o : option (list Frame)) :
  In (zerolog.FFieldStack o) (zerolog.eventFields g b kvs) <->
  b = true /\
  exists marshal k e,
    zerolog.ErrorStackMarshaler g = Some marshal /\
    In (k, VError e) (zerolog.fieldList kvs) /\ o = marshal (Some e).
Proof.
  induction kvs as [|x|key val rest IH] using pairs_ind.
  - simpl. split; [done|]. by intros (_ & ? & ? & ? & _ & [] & _).
  - simpl. split; [done|]. by intros (_ & ? & ? & ? & _ & [] & _).
  - simpl. destruct key as [k| | |]; try exact IH. simpl.
    rewrite in_app_iff, IH. split.
    + intros [Hbad|[Hin|(Hb & marshal & k' & e & Hm & Hin & Ho)]]; [done| |].
      * unfold zerolog.fieldStack in Hin. destruct val as [| | |e]; try done.
        destruct b; [|done].
        destruct (zerolog.ErrorStackMarshaler g) as [marshal|] eqn:Hm; [|done].
        destruct Hin as [[= <-]|[]]. split; [done|].
        exists marshal, k, e. split; [done|]. split; [by left|done].
      * split; [done|]. exists marshal, k', e. split; [done|].
        split; [by right|done].
    + intros (Hb & marshal & k' & e & Hm & [Heq|Hin] & Ho).
      * injection Heq as -> ->. right. left. unfold zerolog.fieldStack.
        rewrite Hb, Hm, Ho. by left.
      * right. right. split; [done|]. by exists marshal, k', e.
Qed.

Lemma fieldStack_after_pair (g : zerolog.Globals) (b : bool)
    (kvs : list Value) (o : option (list Frame)) :
  In (zerolog.FFieldStack o) (zerolog.eventFields g b kvs) ->
  exists k e pre post,
    zerolog.eventFields g b kvs =
      pre ++ zerolog.FPair k (VError e) :: zerolog.FFieldStack o :: post.
Proof.
  induction kvs as [|x|key val rest IH] using pairs_ind; [done|done|].
  simpl. destruct key as [k| | |]; try exact IH. simpl.
  intros [Hbad|Hin]; [done|]. apply in_app_iff in Hin as [Hin|Hin].
  - unfold zerolog.fieldStack in *. destruct val as [| | |e]; try done.
    destruct b; [|done].
    destruct (zerolog.ErrorStackMarshaler g) as [marshal|]; [|done].
    destruct Hin as [[= <-]|[]]. by exists k, e, [], (zerolog.eventFields g true rest).
  - destruct (IH Hin) as (k' & e & pre & post & ->).
    exists k', e, (zerolog.FPair k val :: zerolog.fieldStack g b val ++ pre), post.
    simpl. by rewrite <- app_assoc.
Qed.

(** Running the hooks appends one [time] entry per hook and changes
    nothing else. *)
Lemma fold_hooks (hs : list zerolog.Hook) (ev : zerolog.Event) :
  let ev' := fold_left (fun acc h => zerolog.runHook h acc) hs ev in
  zerolog.e_w ev' = zerolog.e_w ev /\ zerolog.e_level ev' = zerolog.e_level ev /\
  zerolog.done ev' = zerolog.done ev /\
  zerolog.buf ev' = zerolog.buf ev ++ hook_fields hs.
Proof.
  revert ev. induction hs as [|h hs IH]; intros ev; simpl.
  - by rewrite app_nil_r.
  - destruct (IH (zerolog.runHook h ev)) as (Hw & Hl & Hd & Hb).
    rewrite Hw, Hl, Hd, Hb. destruct h; simpl. by rewrite <- app_assoc.
Qed.

Lemma Event_Msg_eq (ev : zerolog.Event) (msg : string) :
  zerolog.Event_Msg (Some ev) msg =
  ([zerolog.mkWritten (zerolog.e_w ev) (zerolog.e_level ev)
      (zerolog.buf ev ++ hook_fields (zerolog.ch ev) ++ message_fields msg)],
   zerolog.runDone (zerolog.done ev) msg).
Proof.
  unfold zerolog.Event_Msg, message_fields.
  destruct (fold_hooks (zerolog.ch ev) ev) as (Hw & Hl & Hd & Hb).
  destruct (String.eqb msg ""); simpl; rewrite Hw, Hl, Hd, Hb.
  - by rewrite app_nil_r.
  - by rewrite <- app_assoc.
Qed.

Lemma withFieldsAndCaller_nil (cs : list Frame) (kvs : list Value) (s : State) :
  withFieldsAndCaller cs None kvs s = Ret None s.
Proof.
  unfold withFieldsAndCaller, mbind, M_bind, get, mret, M_ret. simpl.
  by destruct (0 <? length kvs)%nat, (callerEnabled s).
Qed.

Lemma withFieldsAndCaller_eq (m : Frame) (cs : list Frame) (ev : zerolog.Event)
    (kvs : list Value) (s : State) :
  exists ev', withFieldsAndCaller (m :: cs) (Some ev) kvs s = Ret (Some ev') s /\
    zerolog.e_w ev' = zerolog.e_w ev /\ zerolog.e_level ev' = zerolog.e_level ev /\
    zerolog.done ev' = zerolog.done ev /\ zerolog.ch ev' = zerolog.ch ev /\
    zerolog.e_stack ev' = zerolog.e_stack ev /\
    zerolog.buf ev' =
      zerolog.buf ev
      ++ zerolog.eventFields (globals s) (zerolog.e_stack ev) kvs
      ++ caller_fields s cs.
Proof.
  unfold withFieldsAndCaller, mbind, M_bind, get, mret, M_ret, caller_fields.
  unfold zerolog.Event_Caller, zerolog.Event_caller, runtime_Caller. simpl.
  destruct kvs as [|k kvs]; simpl; destruct (callerEnabled s); simpl;
    try destruct (cs !! 1%nat); simpl; eexists; (split; [reflexivity|]); simpl;
    rewrite <- ?app_assoc, ?app_nil_r; by repeat split.
Qed.

Lemma finished_nothing (s : State) : finished ([], None) s = Ret tt s.
Proof. destruct s. unfold finished, set_out. simpl. by rewrite app_nil_r. Qed.

Lemma emit_tail (m : Frame) (cs : list Frame) (ev : zerolog.Event)
    (kvs : list Value) (msg : string) (s : State) :
  match withFieldsAndCaller (m :: cs) (Some ev) kvs s with
  | Ret event s' => finished (zerolog.Event_Msg event msg) s'
  | Halt o s' => Halt o s'
  end =
  finished
    ([zerolog.mkWritten (zerolog.e_w ev) (zerolog.e_level ev)
        (zerolog.buf ev
         ++ zerolog.eventFields (globals s) (zerolog.e_stack ev) kvs
         ++ caller_fields s cs ++ hook_fields (zerolog.ch ev)
         ++ message_fields msg)],
     zerolog.runDone (zerolog.done ev) msg) s.
Proof.
  destruct (withFieldsAndCaller_eq m cs ev kvs s)
    as (ev' & -> & Hw & Hl & Hd & Hc & _ & Hb).
  rewrite Event_Msg_eq, Hw, Hl, Hd, Hc, Hb. by rewrite <- !app_assoc.
Qed.

Lemma emit_tail_nil (cs : list Frame) (kvs : list Value) (msg : string)
    (s : State) :
  match withFieldsAndCaller cs None kvs s with
  | Ret event s' => finished (zerolog.Event_Msg event msg) s'
  | Halt o s' => Halt o s'
  end = Ret tt s.
Proof. rewrite withFieldsAndCaller_nil. apply finished_nothing. Qed.

Lemma Error_event_eq (g : zerolog.Globals) (ev : zerolog.Event) (flag : bool)
    (err : option goerror) :
  exists ev',
    zerolog.Event_Err g
      (if flag then zerolog.Event_Stack (Some ev) else Some ev) err = Some ev' /\
    zerolog.e_w ev' = zerolog.e_w ev /\ zerolog.e_level ev' = zerolog.e_level ev /\
    zerolog.done ev' = zerolog.done ev /\ zerolog.ch ev' = zerolog.ch ev /\
    zerolog.e_stack ev' = flag || zerolog.e_stack ev /\
    zerolog.buf ev' =
      zerolog.buf ev
      ++ (if flag || zerolog.e_stack ev then
            match marshaledStack g err with
            | Some frames => [zerolog.FStack frames]
            | None => []
            end
          else [])
      ++ match err with
         | Some x => [zerolog.FError (Error_msg x)]
         | None => []
         end.
Proof.
  unfold marshaledStack.
  destruct flag; simpl; eexists; (split; [reflexivity|]); simpl;
    destruct (zerolog.ErrorStackMarshaler g); by rewrite <- ?app_assoc.
Qed.

(** Every method, on a valid Logger: if the level filter lets the call
    through, one event with the buffer [event_buf] is written and the call
    ends as the severity says; if not, nothing is written, and a Fatal or
    Panic call still does not return. *)
Lemma Logger_call_eq (s : State) (l : Logger) (z : zerolog.Logger)
    (sv : Severity) (cs : list Frame) (msg : string) (kvs : list Value) :
  heap s !! l = Some z ->
  Logger_call sv cs l msg kvs s =
    if zerolog.should (globals s) z (severity_level sv) then
      finished ([zerolog.mkWritten (zerolog.w z) (severity_level sv)
                   (event_buf s z sv cs msg kvs)],
                zerolog.runDone (severity_done sv) msg) s
    else
      match zerolog.runDone (severity_done sv) "" with
      | None => Ret tt s
      | Some o => Halt o s
      end.
Proof.
  intros Hl.
  destruct sv; unfold Logger_call, Logger_Debug, Logger_Info, Logger_Warn,
    Logger_Error, Logger_Fatal, Logger_Panic;
    unfold mbind, M_bind, deref, get; rewrite Hl;
    unfold zerolog.Logger_Debug, zerolog.Logger_Info, zerolog.Logger_Warn,
      zerolog.Logger_Error, zerolog.Logger_Fatal, zerolog.Logger_Panic,
      zerolog.newEvent;
    destruct (zerolog.should (globals s) z _);
    unfold started, mret, M_ret, halt; cbv beta iota;
    try reflexivity; try apply emit_tail_nil.
  4: match goal with
     | |- context [zerolog.Event_Err ?g (if ?b then _ (Some ?e) else _) ?x] =>
         destruct (Error_event_eq g e b x)
           as (ev' & -> & Hw & Hv & Hd & Hc & Hs & Hb)
     end.
  5: destruct (stacktraceEnabled s);
       cbn [zerolog.Event_Err zerolog.Event_Stack]; apply emit_tail_nil.
  all: rewrite emit_tail; rewrite ?Hw, ?Hv, ?Hd, ?Hc, ?Hs, ?Hb;
    unfold event_buf, stack_fields, error_fields, call_fields, stack_flag;
    simpl.
  4: rewrite !orb_false_r; destruct (stacktraceEnabled s), err; simpl.
  all: rewrite <- ?app_assoc; try reflexivity.
Qed.

(** ** What an emission call does to the state *)

Lemma set_out_nothing (s : State) : set_out (out s ++ []) s = s.
Proof. destruct s. unfold set_out. simpl. by rewrite app_nil_r. Qed.

Lemma Logger_call_nil (s : State) (l : Logger) (sv : Severity)
    (cs : list Frame) (msg : string) (kvs : list Value) :
  heap s !! l = None ->
  Logger_call sv cs l msg kvs s = Halt nilDeref s.
Proof.
  intros Hl.
  destruct sv; unfold Logger_call, Logger_Debug, Logger_Info, Logger_Warn,
    Logger_Error, Logger_Fatal, Logger_Panic;
    unfold mbind, M_bind, deref; by rewrite Hl.
Qed.

Lemma Logger_call_final (s : State) (l : Logger) (sv : Severity)
    (cs : list Frame) (msg : string) (kvs : list Value) :
  exists X, final (Logger_call sv cs l msg kvs s) = set_out (out s ++ X) s.
Proof.
  destruct (heap s !! l) as [z|] eqn:Hl.
  - rewrite (Logger_call_eq s l z) by done.
    destruct (zerolog.should _ _ _).
    + eexists. unfold finished. simpl.
      by destruct (zerolog.runDone (severity_done sv) msg).
    + exists []. rewrite set_out_nothing.
      by destruct (zerolog.runDone (severity_done sv) "").
  - rewrite Logger_call_nil by done. exists []. by rewrite set_out_nothing.
Qed.

Lemma Logger_call_emitted (s : State) (l : Logger) (z : zerolog.Logger)
    (sv : Severity) (cs : list Frame) (msg : string) (kvs : list Value) :
  heap s !! l = Some z ->
  emitted (Logger_call sv cs l msg kvs) s =
    if zerolog.should (globals s) z (severity_level sv)
    then [Logged (zerolog.mkWritten (zerolog.w z) (severity_level sv)
                    (event_buf s z sv cs msg kvs))]
    else [].
Proof.
  intros Hl. unfold emitted. rewrite (Logger_call_eq s l z) by done.
  destruct (zerolog.should _ _ _).
  - unfold finished. simpl.
    destruct (zerolog.runDone (severity_done sv) msg); simpl;
      by rewrite drop_app_length.
  - destruct (zerolog.runDone (severity_done sv) ""); simpl;
      by rewrite drop_all.
Qed.

Lemma Logger_call_stopped (s : State) (l : Logger) (z : zerolog.Logger)
    (sv : Severity) (cs : list Frame) (msg : string) (kvs : list Value) :
  heap s !! l = Some z ->
  stopped (Logger_call sv cs l msg kvs s) =
    zerolog.runDone (severity_done sv)
      (if zerolog.should (globals s) z (severity_level sv) then msg else "").
Proof.
  intros Hl. rewrite (Logger_call_eq s l z) by done.
  destruct (zerolog.should _ _ _).
  - unfold finished. simpl.
    by destruct (zerolog.runDone (severity_done sv) msg).
  - by destruct (zerolog.runDone (severity_done sv) "").
Qed.

Lemma event_buf_ext (s s' : State) (z : zerolog.Logger) (sv : Severity)
    (cs : list Frame) (msg : string) (kvs : list Value) :
  same_settings s s' ->
  event_buf s' z sv cs msg kvs = event_buf s z sv cs msg kvs.
Proof.
  intros (Hs & Hc & Hg).
  unfold event_buf, stack_fields, caller_fields, call_fields, stack_flag.
  by rewrite Hs, Hc, Hg.
Qed.

Lemma same_behaviour_intro (l : Logger) (s s' : State) :
  heap s' !! l = heap s !! l -> same_settings s s' -> same_behaviour l s s'.
Proof.
  intros Hh Hs. split; [done|]. intros sv cs msg kvs.
  destruct (heap s !! l) as [z|] eqn:Hl.
  - rewrite !(Logger_call_emitted _ l z), !(Logger_call_stopped _ l z) by done.
    rewrite (event_buf_ext s s') by done.
    destruct Hs as (_ & _ & ->). done.
  - unfold emitted. rewrite !Logger_call_nil by done. simpl.
    by rewrite !drop_all.
Qed.

(** ** Derivation allocates; options store in place *)

Lemma alloc_eq (z : zerolog.Logger) (s : State) :
  alloc z s = Ret (length (heap s)) (set_heap (heap s ++ [z]) s).
Proof. reflexivity. Qed.

Lemma alloc_old (z : zerolog.Logger) (s : State) (l : Logger) (x : zerolog.Logger) :
  heap s !! l = Some x ->
  heap (set_heap (heap s ++ [z]) s) !! l = Some x /\ length (heap s) <> l.
Proof.
  intros Hl. simpl. split.
  - by apply lookup_app_l_Some.
  - apply lookup_lt_Some in Hl. lia.
Qed.

Lemma alloc_new (z : zerolog.Logger) (s : State) :
  heap (set_heap (heap s ++ [z]) s) !! length (heap s) = Some z.
Proof. simpl. by rewrite list_lookup_middle. Qed.

Lemma alloc_same_behaviour (z x : zerolog.Logger) (s : State) (l : Logger) :
  heap s !! l = Some x ->
  same_behaviour l s (set_heap (heap s ++ [z]) s).
Proof.
  intros Hl. apply same_behaviour_intro; [|done].
  rewrite Hl. by apply alloc_old.
Qed.

Lemma Logger_With_eq (s : State) (l : Logger) (z : zerolog.Logger)
    (kvs : list Value) :
  heap s !! l = Some z ->
  Logger_With l kvs s =
    Ret (length (heap s))
      (set_heap (heap s ++ [zerolog.Context_Fields z kvs]) s).
Proof. intros Hl. unfold Logger_With, mbind, M_bind, deref. by rewrite Hl. Qed.

Lemma Logger_Level_eq (s : State) (l : Logger) (z : zerolog.Logger)
    (level : Level) :
  heap s !! l = Some z ->
  Logger_Level l level s =
    Ret (length (heap s))
      (set_heap (heap s ++ [zerolog.Logger_Level z level]) s).
Proof. intros Hl. unfold Logger_Level, mbind, M_bind, deref. by rewrite Hl. Qed.

Lemma output_option_eq (o : OutputOption) (s : State) (l : Logger)
    (z : zerolog.Logger) :
  heap s !! l = Some z ->
  output_option o l s = Ret tt (set_heap (<[l := rebound o z]> (heap s)) s).
Proof.
  intros Hl.
  destruct o; unfold output_option, WithPlainText, WriteToFile, mbind, M_bind,
    deref, store; rewrite Hl; cbv beta iota; by rewrite Hl.
Qed.

(** The options of [New] act on the Logger under construction only. *)
Lemma applyOptions_eq (os : list OutputOption) (s : State) (l : Logger)
    (z : zerolog.Logger) :
  heap s !! l = Some z ->
  exists z',
    applyOptions (map output_option os) l s =
      Ret tt (set_heap (<[l := z']> (heap s)) s) /\
    zerolog.level z' = zerolog.level z /\
    zerolog.context z' = zerolog.context z /\
    zerolog.hooks z' = zerolog.hooks z.
Proof.
  revert s z. induction os as [|o os IH]; intros s z Hl.
  - exists z. simpl. unfold mret, M_ret.
    rewrite list_insert_id by done. by destruct s.
  - simpl. unfold mbind, M_bind. rewrite (output_option_eq o s l z) by done.
    destruct (IH (set_heap (<[l := rebound o z]> (heap s)) s) (rebound o z))
      as (z' & -> & Hlev & Hctx & Hhk).
    { simpl. apply list_lookup_insert_eq. by apply lookup_lt_Some in Hl. }
    exists z'. simpl. by rewrite list_insert_insert_eq.
Qed.

Lemma New_eq (level : Level) (os : list OutputOption) (s : State) :
  exists z',
    New level (map output_option os) s =
      Ret (length (heap s)) (set_heap (heap s ++ [z']) s) /\
    zerolog.level z' = level /\ zerolog.context z' = [] /\
    zerolog.hooks z' = [zerolog.timestampHook].
Proof.
  unfold New, mbind, M_bind. rewrite alloc_eq.
  destruct (applyOptions_eq os
              (set_heap (heap s ++
                 [zerolog.Context_Logger
                    (zerolog.Context_Timestamp
                       (zerolog.Logger_With
                          (zerolog.Logger_Level (zerolog.New zerolog.Stdout) level)))])
                 s)
              (length (heap s)) _ (alloc_new _ s))
    as (z' & -> & Hlev & Hctx & Hhk).
  exists z'. unfold mret, M_ret. simpl.
  replace (length (heap s)) with (length (heap s) + 0)%nat at 2 by lia.
  rewrite insert_app_r. simpl. done.
Qed.

(** ** Level filtering (claim C1) *)

Lemma should_true (g : zerolog.Globals) (z : zerolog.Logger) (lvl : Level) :
  zerolog.level z <= lvl -> zerolog.gLevel g <= lvl ->
  zerolog.should g z lvl = true.
Proof.
  intros H1 H2. unfold zerolog.should.
  destruct (Z.ltb_spec lvl (zerolog.level z)); [lia|].
  destruct (Z.ltb_spec lvl (zerolog.gLevel g)); [lia|]. done.
Qed.

Lemma should_false_level (g : zerolog.Globals) (z : zerolog.Logger) (lvl : Level) :
  lvl < zerolog.level z -> zerolog.should g z lvl = false.
Proof.
  intros H. unfold zerolog.should.
  destruct (Z.ltb_spec lvl (zerolog.level z)); [done|lia].
Qed.

Lemma should_false_global (g : zerolog.Globals) (z : zerolog.Logger) (lvl : Level) :
  lvl < zerolog.gLevel g -> zerolog.should g z lvl = false.
Proof.
  intros H. unfold zerolog.should.
  destruct (Z.ltb_spec lvl (zerolog.gLevel g)); [|lia].
  by rewrite orb_true_r.
Qed.

Lemma level_of_Some (s : State) (l : Logger) (L : Level) :
  level_of s l = Some L ->
  exists z, heap s !! l = Some z /\ zerolog.level z = L.
Proof.
  unfold level_of. destruct (heap s !! l) as [z|]; simpl; [|done].
  intros [= <-]. by exists z.
Qed.

(** C1, counterexample.  A Logger configured at [InfoLevel] writes nothing
    for an [Info] call once [SetGlobalLevel ErrorLevel] has been called,
    although that severity is not below its configured level; before the
    global level was raised the same call wrote an event. *)
Lemma global_level_hides_configured_level :
  level_of floor_state 1%nat = Some InfoLevel /\
  emitted (Logger_call SevInfo ["main.go:10"] 1%nat "m" []) floor_state = [] /\
  emitted (Logger_call SevInfo ["main.go:10"] 1%nat "m" []) (one_logger InfoLevel) =
    [Logged (zerolog.mkWritten zerolog.Stdout InfoLevel
               [zerolog.FLevel InfoLevel; zerolog.FTime; zerolog.FMessage "m"])].
Proof. repeat split. Qed.

(** C1, as amended.  A Logger whose configured minimum level is [L2]
    (which [New L2], with any of the package's options, and [Level L2]
    establish) writes nothing for a call of a severity below [L2], and
    writes exactly one event, carrying that severity, for a call of
    severity [L2] or above unless the process-wide level set by
    [SetGlobalLevel] is above the severity of the call. *)
Theorem level_filter_under_global_floor (s : State) (l : Logger) (L2 : Level)
    (sv : Severity) (cs : list Frame) (msg : string) (kvs : list Value) :
  level_of s l = Some L2 ->
  (severity_level sv < L2 -> emitted (Logger_call sv cs l msg kvs) s = []) /\
  (L2 <= severity_level sv ->
   zerolog.gLevel (globals s) <= severity_level sv ->
   exists z, heap s !! l = Some z /\
     emitted (Logger_call sv cs l msg kvs) s =
       [Logged (zerolog.mkWritten (zerolog.w z) (severity_level sv)
                  (event_buf s z sv cs msg kvs))]) /\
  (severity_level sv < zerolog.gLevel (globals s) ->
   emitted (Logger_call sv cs l msg kvs) s = []) /\
  (forall (L : Level) (os : list OutputOption), exists l' s',
     New L (map output_option os) s = Ret l' s' /\ level_of s' l' = Some L) /\
  (forall L : Level, exists l' s',
     Logger_Level l L s = Ret l' s' /\ level_of s' l' = Some L).
Proof.
  intros Hlev. destruct (level_of_Some s l L2 Hlev) as (z & Hl & Hz).
  repeat split.
  - intros Hlt. rewrite (Logger_call_emitted s l z) by done.
    by rewrite should_false_level by lia.
  - intros Hle Hg. exists z. split; [done|].
    rewrite (Logger_call_emitted s l z) by done.
    by rewrite should_true by lia.
  - intros Hlt. rewrite (Logger_call_emitted s l z) by done.
    by rewrite should_false_global by lia.
  - intros L os. destruct (New_eq L os s) as (z' & -> & Hz' & _).
    do 2 eexists. split; [reflexivity|].
    unfold level_of. rewrite alloc_new. simpl. by rewrite Hz'.
  - intros L. rewrite (Logger_Level_eq s l z) by done.
    do 2 eexists. split; [reflexivity|].
    unfold level_of. by rewrite alloc_new.
Qed.

(** The theorem at a Logger made by [New InfoLevel]: [Debug] is hidden,
    [Warn] is written. *)
Lemma level_filter_witness :
  level_of (one_logger InfoLevel) 1%nat = Some InfoLevel /\
  emitted (Logger_call SevDebug ["main.go:10"] 1%nat "hidden" [])
    (one_logger InfoLevel) = [] /\
  exists z, heap (one_logger InfoLevel) !! 1%nat = Some z /\
    emitted (Logger_call SevWarn ["main.go:11"] 1%nat "visible" [])
      (one_logger InfoLevel) =
      [Logged (zerolog.mkWritten (zerolog.w z) WarnLevel
                 (event_buf (one_logger InfoLevel) z SevWarn ["main.go:11"]
                    "visible" []))].
Proof.
  split; [reflexivity|]. split.
  - apply (proj1 (level_filter_under_global_floor (one_logger InfoLevel) 1%nat
                    InfoLevel SevDebug ["main.go:10"] "hidden" [] eq_refl)).
    reflexivity.
  - apply (proj1 (proj2 (level_filter_under_global_floor (one_logger InfoLevel)
                           1%nat InfoLevel SevWarn ["main.go:11"] "visible" []
                           eq_refl)));
      discriminate.
Defined.

(** ** Derivation and the original Logger (claim C2) *)

(** C2, counterexample.  Applying the plain-text option to a Logger changes
    that very Logger: its writer is replaced, and the event an [Info] call
    through it emits goes to the console writer instead of the JSON
    writer. *)
Lemma output_option_changes_the_logger :
  zerolog.w <$> heap json_state !! 1%nat = Some zerolog.Stdout /\
  WithPlainText 1%nat json_state = Ret tt plain_state /\
  zerolog.w <$> heap plain_state !! 1%nat =
    Some (zerolog.ConsoleWriter zerolog.Stdout) /\
  emitted (Logger_call SevInfo ["main.go:10"] 1%nat "m" []) json_state =
    [Logged (zerolog.mkWritten zerolog.Stdout InfoLevel
               [zerolog.FLevel InfoLevel; zerolog.FTime; zerolog.FMessage "m"])] /\
  emitted (Logger_call SevInfo ["main.go:10"] 1%nat "m" []) plain_state =
    [Logged (zerolog.mkWritten (zerolog.ConsoleWriter zerolog.Stdout) InfoLevel
               [zerolog.FLevel InfoLevel; zerolog.FTime; zerolog.FMessage "m"])].
Proof. repeat split. Qed.

(** C2, as amended.  [With] and [Level] return a new Logger and leave the
    Logger they are called on as it was: emission through it writes the
    same and ends the same.  So does [New], whose options act only on the
    Logger being built.  An output option applied to a Logger is not a
    derivation: it returns nothing and replaces the writer of that Logger
    in place, keeping its level, fields and hooks, and leaves every other
    Logger alone. *)
Theorem derivation_leaves_original (s : State) (l : Logger) (z : zerolog.Logger) :
  heap s !! l = Some z ->
  (forall kvs, exists l' s',
     Logger_With l kvs s = Ret l' s' /\ l' <> l /\ same_behaviour l s s') /\
  (forall level, exists l' s',
     Logger_Level l level s = Ret l' s' /\ l' <> l /\ same_behaviour l s s') /\
  (forall level os, exists l' s',
     New level (map output_option os) s = Ret l' s' /\ l' <> l /\
     same_behaviour l s s') /\
  (forall o, exists s',
     output_option o l s = Ret tt s' /\
     heap s' !! l = Some (rebound o z) /\
     zerolog.w (rebound o z) = option_writer o /\
     zerolog.level (rebound o z) = zerolog.level z /\
     zerolog.context (rebound o z) = zerolog.context z /\
     zerolog.hooks (rebound o z) = zerolog.hooks z /\
     forall l', l' <> l -> same_behaviour l' s s').
Proof.
  intros Hl. repeat split.
  - intros kvs. rewrite (Logger_With_eq s l z) by done.
    do 2 eexists. split; [reflexivity|].
    split; [by eapply alloc_old | by eapply alloc_same_behaviour].
  - intros level. rewrite (Logger_Level_eq s l z) by done.
    do 2 eexists. split; [reflexivity|].
    split; [by eapply alloc_old | by eapply alloc_same_behaviour].
  - intros level os. destruct (New_eq level os s) as (z' & -> & _).
    do 2 eexists. split; [reflexivity|].
    split; [by eapply alloc_old | by eapply alloc_same_behaviour].
  - intros o. rewrite (output_option_eq o s l z) by done.
    eexists. split; [reflexivity|]. simpl. split.
    { apply list_lookup_insert_eq. by apply lookup_lt_Some in Hl. }
    do 4 (split; [by destruct o|]).
    intros l' Hne. apply same_behaviour_intro; [|done].
    simpl. by apply list_lookup_insert_ne.
Qed.

(** The theorem at the Logger of [json_state], for [With]. *)
Lemma derivation_leaves_original_witness :
  heap json_state !! 1%nat = Some (new_logger DebugLevel) /\
  exists l' s',
    Logger_With 1%nat [VString "k"; VInt 1] json_state = Ret l' s' /\
    l' <> 1%nat /\ same_behaviour 1%nat json_state s'.
Proof.
  split; [reflexivity|].
  apply (derivation_leaves_original json_state 1%nat (new_logger DebugLevel)).
  reflexivity.
Defined.

(** ** Parsing a level (claims C3 and C4) *)

(** C3.  When the engine's parser accepts the string with a value below
    [DebugLevel] or above [PanicLevel], [ParseLevel] returns the nearer
    bound and a nil error, and the only effect is one printed line, which
    quotes the string. *)
Theorem ParseLevel_clamps (levelStr : string) (v : zerolog.Level) (s : State) :
  zerolog.ParseLevel levelStr = (v, None) ->
  (v < DebugLevel ->
     ParseLevel levelStr s =
       Ret (DebugLevel, None)
         (set_out (out s ++ [Printed ("log level " +:+ dquote +:+ levelStr
                                      +:+ dquote +:+ " less than min allowed"
                                      +:+ newline)]) s)) /\
  (PanicLevel < v ->
     ParseLevel levelStr s =
       Ret (PanicLevel, None)
         (set_out (out s ++ [Printed ("log level " +:+ dquote +:+ levelStr
                                      +:+ dquote +:+ " greater than max allowed"
                                      +:+ newline)]) s)).
Proof.
  intros Hp. unfold ParseLevel. rewrite Hp.
  unfold minAllowedLevel, maxAllowedLevel. split; intros Hv.
  - by destruct (Z.ltb_spec v DebugLevel); [|lia].
  - destruct (Z.ltb_spec v DebugLevel); [unfold DebugLevel, PanicLevel,
      zerolog.DebugLevel, zerolog.PanicLevel in *; lia|].
    by destruct (Z.ltb_spec PanicLevel v); [|lia].
Qed.

(** The theorem at the string [trace]. *)
Lemma ParseLevel_trace :
  zerolog.ParseLevel "trace" = (zerolog.TraceLevel, None) /\
  zerolog.TraceLevel < DebugLevel /\
  ParseLevel "trace" started_state =
    Ret (DebugLevel, None)
      (set_out (out started_state
                ++ [Printed ("log level " +:+ dquote +:+ "trace" +:+ dquote
                             +:+ " less than min allowed" +:+ newline)])
         started_state).
Proof.
  split; [reflexivity|]. split; [reflexivity|].
  apply (proj1 (ParseLevel_clamps "trace" zerolog.TraceLevel started_state
                  eq_refl)).
  reflexivity.
Defined.

(** The upper bound is met as well: the name [disabled] parses to a value
    above [PanicLevel]. *)
Lemma ParseLevel_disabled :
  fst <$> (match ParseLevel "disabled" started_state with
           | Ret r _ => Some r
           | Halt _ _ => None
           end) = Some PanicLevel.
Proof. reflexivity. Qed.

(** C4, counterexample.  The level that comes with the error for a rejected
    string is the level a successful parse of [error] returns: the value
    alone does not tell a failed parse from a successful one. *)
Lemma failed_parse_level_is_a_parsed_level :
  (exists err,
     ParseLevel "bogus" started_state = Ret (ErrorLevel, Some err) started_state) /\
  ParseLevel "error" started_state = Ret (ErrorLevel, None) started_state.
Proof. split; [eexists|]; reflexivity. Qed.

(** C4, as amended.  When the engine's parser rejects the string,
    [ParseLevel] prints nothing and returns a non-nil error that wraps the
    parser's error and whose message quotes the offending string; the
    level returned with it is [ErrorLevel], a fixed value that is not the
    zero value of [Level] and that is also the result of successfully
    parsing [error]. *)
Theorem ParseLevel_rejects (levelStr : string) (v : zerolog.Level)
    (e : goerror) (s : State) :
  zerolog.ParseLevel levelStr = (v, Some e) ->
  (exists err,
     ParseLevel levelStr s = Ret (ErrorLevel, Some err) s /\
     Unwrap err = Some e /\
     Error_msg err =
       "cannot parse log level " +:+ dquote +:+ levelStr +:+ dquote +:+ " "
       +:+ Error_msg e) /\
  ErrorLevel = 3 /\ ErrorLevel <> 0 /\
  ParseLevel "error" s = Ret (ErrorLevel, None) s.
Proof.
  intros Hp. unfold ParseLevel at 1. rewrite Hp. split.
  - eexists. split; [reflexivity|]. by split.
  - by repeat split.
Qed.

(** The theorem at the string [bogus]. *)
Lemma ParseLevel_bogus :
  zerolog.ParseLevel "bogus" =
    (zerolog.NoLevel,
     Some (errorString "Unknown Level String: 'bogus', defaulting to NoLevel")) /\
  exists err,
    ParseLevel "bogus" started_state = Ret (ErrorLevel, Some err) started_state /\
    Unwrap err =
      Some (errorString "Unknown Level String: 'bogus', defaulting to NoLevel") /\
    Error_msg err =
      "cannot parse log level " +:+ dquote +:+ "bogus" +:+ dquote +:+ " "
      +:+ "Unknown Level String: 'bogus', defaulting to NoLevel".
Proof.
  split; [reflexivity|].
  apply (ParseLevel_rejects "bogus" zerolog.NoLevel
           (errorString "Unknown Level String: 'bogus', defaulting to NoLevel")
           started_state).
  reflexivity.
Defined.

(** ** Fields attached with With (claim C5) *)

Lemma emitted_event (s : State) (l : Logger) (z : zerolog.Logger)
    (sv : Severity) (cs : list Frame) (msg : string) (kvs : list Value)
    (wr : zerolog.Written) :
  heap s !! l = Some z ->
  In (Logged wr) (emitted (Logger_call sv cs l msg kvs) s) ->
  zerolog.should (globals s) z (severity_level sv) = true /\
  wr = zerolog.mkWritten (zerolog.w z) (severity_level sv)
         (event_buf s z sv cs msg kvs).
Proof.
  intros Hl. rewrite (Logger_call_emitted s l z) by done.
  destruct (zerolog.should _ _ _); simpl; [|done].
  intros [[= <-]|[]]. done.
Qed.

(** C5.  After [With k1 v1] and then [With k2 v2], every event emitted
    through the resulting Logger, by any of the six methods and in any
    later state, holds the fields the original Logger had attached, then
    [k1 = v1], then [k2 = v2]; this goes on for as long as the Logger keeps
    its attached fields, which an output option applied to it does not
    change.  Such an event is written whenever the level filter lets the
    call through. *)
Theorem With_fields_accumulate (s : State) (l : Logger) (z : zerolog.Logger)
    (k1 k2 : string) (v1 v2 : Value) :
  heap s !! l = Some z ->
  exists l1 s1 l2 s2 z2,
    Logger_With l [VString k1; v1] s = Ret l1 s1 /\
    Logger_With l1 [VString k2; v2] s1 = Ret l2 s2 /\
    heap s2 !! l2 = Some z2 /\
    (forall o, zerolog.context (rebound o z2) = zerolog.context z2) /\
    forall s3 z3 sv cs msg kvs,
      heap s3 !! l2 = Some z3 ->
      zerolog.context z3 = zerolog.context z2 ->
      (zerolog.should (globals s3) z3 (severity_level sv) = true ->
       exists wr, emitted (Logger_call sv cs l2 msg kvs) s3 = [Logged wr]) /\
      (forall wr, In (Logged wr) (emitted (Logger_call sv cs l2 msg kvs) s3) ->
       exists post,
         zerolog.wr_buf wr =
           zerolog.FLevel (severity_level sv)
           :: zerolog.pairFields (zerolog.context z)
           ++ zerolog.FPair k1 v1 :: zerolog.FPair k2 v2 :: post).
Proof.
  intros Hl.
  rewrite (Logger_With_eq s l z) by done. do 2 eexists.
  rewrite (Logger_With_eq _ _ (zerolog.Context_Fields z [VString k1; v1]))
    by apply alloc_new.
  do 3 eexists. split; [reflexivity|]. split; [reflexivity|].
  split; [apply alloc_new|]. split; [done|].
  intros s3 z3 sv cs msg kvs Hl3 Hctx. split.
  - intros Hsh. rewrite (Logger_call_emitted s3 _ z3) by done.
    rewrite Hsh. by eexists.
  - intros wr Hin.
    destruct (emitted_event s3 _ z3 sv cs msg kvs wr Hl3 Hin) as (_ & ->).
    simpl. unfold event_buf. rewrite Hctx. simpl.
    unfold zerolog.appendFields, zerolog.pairFields. simpl.
    rewrite <- !app_assoc, !map_app. simpl.
    rewrite <- !app_assoc. simpl. by eexists.
Qed.

(** The theorem at the Logger of [json_state] and the first two pairs of
    [Test_With]. *)
Lemma With_fields_accumulate_witness :
  heap json_state !! 1%nat = Some (new_logger DebugLevel) /\
  exists l1 s1 l2 s2 z2,
    Logger_With 1%nat [VString "a"; VInt 1] json_state = Ret l1 s1 /\
    Logger_With l1 [VString "b"; VString "1"] s1 = Ret l2 s2 /\
    heap s2 !! l2 = Some z2 /\
    (forall o, zerolog.context (rebound o z2) = zerolog.context z2) /\
    forall s3 z3 sv cs msg kvs,
      heap s3 !! l2 = Some z3 ->
      zerolog.context z3 = zerolog.context z2 ->
      (zerolog.should (globals s3) z3 (severity_level sv) = true ->
       exists wr, emitted (Logger_call sv cs l2 msg kvs) s3 = [Logged wr]) /\
      (forall wr, In (Logged wr) (emitted (Logger_call sv cs l2 msg kvs) s3) ->
       exists post,
         zerolog.wr_buf wr =
           zerolog.FLevel (severity_level sv)
           :: zerolog.pairFields (zerolog.context (new_logger DebugLevel))
           ++ zerolog.FPair "a" (VInt 1) :: zerolog.FPair "b" (VString "1") :: post).
Proof.
  split; [reflexivity|].
  apply (With_fields_accumulate json_state 1%nat (new_logger DebugLevel)
           "a" "b" (VInt 1) (VString "1")).
  reflexivity.
Defined.

(** The run of [Test_With], with the fields in the order the test expects. *)
Lemma With_fields_example :
  emitted (l ← Logger_With 1%nat [VString "a"; VInt 1; VString "b"; VString "1"];
           Logger_call SevInfo ["logger_test.go:333"] l "infoMsg 1" [])
    json_state =
  [Logged (zerolog.mkWritten zerolog.Stdout InfoLevel
             [zerolog.FLevel InfoLevel; zerolog.FPair "a" (VInt 1);
              zerolog.FPair "b" (VString "1"); zerolog.FTime;
              zerolog.FMessage "infoMsg 1"])].
Proof. reflexivity. Qed.

(** ** Reachable states keep what init installed *)

Lemma package_call_eq (sv : Severity) (cs : list Frame)
    (ctx : zerolog.GoContext) (msg : string) (kvs : list Value) (s : State) :
  package_call sv cs ctx msg kvs s =
    Logger_call sv (package_frame sv :: cs) (length (heap s)) msg kvs
      (set_heap (heap s ++ [zerolog.Ctx (globals s) ctx]) s).
Proof. by destruct sv. Qed.

(** No call touches the engine's globals, except that [SetGlobalLevel]
    changes the global level. *)
Lemma exec_globals (c : Call) (s : State) :
  globals (exec c s) = globals s \/
  exists level, globals (exec c s) = zerolog.SetGlobalLevel (globals s) level.
Proof.
  destruct c; simpl.
  - left. by destruct (New_eq level os s) as (z' & -> & _).
  - right. by exists level.
  - by left.
  - by left.
  - left. unfold Logger_Level, mbind, M_bind, deref.
    by destruct (heap s !! l).
  - left. unfold Logger_With, mbind, M_bind, deref.
    by destruct (heap s !! l).
  - left. by destruct (Logger_call_final s l sv cs msg kvs) as (X & ->).
  - left. rewrite package_call_eq.
    by destruct (Logger_call_final
                   (set_heap (heap s ++ [zerolog.Ctx (globals s) ctx]) s)
                   (length (heap s)) sv (package_frame sv :: cs) msg kvs)
      as (X & ->).
  - left. unfold ParseLevel.
    destruct (zerolog.ParseLevel levelStr) as [v [e|]]; [done|].
    destruct (v <? minAllowedLevel); [done|].
    by destruct (maxAllowedLevel <? v).
  - left. unfold ToContext, mbind, M_bind, deref. by destruct (heap s !! l).
  - by left.
  - left. destruct (heap s !! l) as [z|] eqn:Hl.
    + by rewrite (output_option_eq o s l z).
    + destruct o; unfold output_option, WithPlainText, WriteToFile, mbind,
        M_bind, deref; by rewrite Hl.
Qed.

Lemma reachable_defaults (s : State) :
  reachable s ->
  zerolog.DefaultContextLogger (globals s) = Some (new_logger ErrorLevel) /\
  zerolog.ErrorStackMarshaler (globals s) = Some pkgerrors.MarshalStack.
Proof.
  induction 1 as [|s c _ [IHd IHm]]; [by split|].
  destruct (exec_globals c s) as [-> | [level ->]]; by split.
Qed.

Lemma reachable_json_state : reachable json_state.
Proof. exact (reachable_step _ (CallNew DebugLevel []) reachable_start). Qed.

Lemma reachable_stack_on_state : reachable stack_on_state.
Proof.
  exact (reachable_step _ (CallSetStacktraceEnabled true) reachable_json_state).
Qed.

(** ** The stack field (claim C6) *)

Lemma not_in_pairFields (f : zerolog.Field) (kvs : list (string * Value)) :
  (forall k v, f <> zerolog.FPair k v) -> ~ In f (zerolog.pairFields kvs).
Proof.
  intros Hf Hin. apply in_map_iff in Hin as ([k v] & <- & _). by eapply Hf.
Qed.

Lemma not_in_hook_fields (f : zerolog.Field) (hs : list zerolog.Hook) :
  f <> zerolog.FTime -> ~ In f (hook_fields hs).
Proof. intros Hf Hin. apply in_map_iff in Hin as (h & <- & _). done. Qed.

Lemma not_in_call_fields (f : zerolog.Field) (s : State) (sv : Severity)
    (kvs : list Value) :
  (forall k v, f <> zerolog.FPair k v) ->
  (forall o, f <> zerolog.FFieldStack o) ->
  ~ In f (call_fields s sv kvs).
Proof.
  intros Hp Hf Hin. apply in_eventFields in Hin as [(k & v & ->)|(o & ->)].
  - by eapply Hp.
  - by eapply Hf.
Qed.

Lemma stack_in_event_buf (s : State) (z : zerolog.Logger) (sv : Severity)
    (cs : list Frame) (msg : string) (kvs : list Value) (st : list Frame) :
  In (zerolog.FStack st) (event_buf s z sv cs msg kvs) <->
  In (zerolog.FStack st) (stack_fields s sv).
Proof.
  unfold event_buf. simpl. rewrite !in_app_iff. split; [|tauto].
  intros [H|[H|[H|[H|[H|[H|[H|H]]]]]]]; try done.
  - by apply not_in_pairFields in H.
  - unfold error_fields in H. destruct sv as [| | |[e|]| |]; simpl in H;
      try done. by destruct H.
  - by apply not_in_call_fields in H.
  - unfold caller_fields in H. destruct (callerEnabled s); [|done].
    destruct (cs !! 1%nat); [|done]. by destruct H.
  - by apply not_in_hook_fields in H.
  - unfold message_fields in H. destruct (String.eqb msg ""); [done|].
    by destruct H.
Qed.

(** C6, counterexample.  With the stack-trace flag set, an [Error] call
    whose error value carries no stack trace emits an event with an error
    field and no stack field. *)
Lemma error_without_trace_has_no_stack_field :
  stacktraceEnabled stack_on_state = true /\
  emitted (Logger_call (SevError (Some (errorString "test error")))
             ["logger_test.go:178"] 1%nat "errorMsg" []) stack_on_state =
    [Logged (zerolog.mkWritten zerolog.Stdout ErrorLevel
               [zerolog.FLevel ErrorLevel; zerolog.FError "test error";
                zerolog.FTime; zerolog.FMessage "errorMsg"])].
Proof. split; reflexivity. Qed.

Lemma fieldStack_in_event_buf (s : State) (z : zerolog.Logger) (sv : Severity)
    (cs : list Frame) (msg : string) (kvs : list Value)
    (o : option (list Frame)) :
  In (zerolog.FFieldStack o) (event_buf s z sv cs msg kvs) <->
  In (zerolog.FFieldStack o) (call_fields s sv kvs).
Proof.
  unfold event_buf. simpl. rewrite !in_app_iff. split; [|tauto].
  intros [H|[H|[H|[H|[H|[H|[H|H]]]]]]]; try done.
  - by apply not_in_pairFields in H.
  - unfold stack_fields in H. destruct sv; try done.
    destruct (stacktraceEnabled s); [|done].
    destruct (marshaledStack (globals s) err); [|done]. by destruct H.
  - unfold error_fields in H. destruct sv as [| | |[e|]| |]; simpl in H;
      try done. by destruct H.
  - unfold caller_fields in H. destruct (callerEnabled s); [|done].
    destruct (cs !! 1%nat); [|done]. by destruct H.
  - by apply not_in_hook_fields in H.
  - unfold message_fields in H. destruct (String.eqb msg ""); [done|].
    by destruct H.
Qed.

Lemma stack_flag_true (s : State) (sv : Severity) :
  stack_flag s sv = true <->
  exists err, sv = SevError err /\ stacktraceEnabled s = true.
Proof.
  split.
  - destruct sv; simpl; try done. intros Hs. by eexists.
  - by intros (err & -> & Hs).
Qed.

(** C6, as amended.  In a state the process can reach, an emitted event
    has a stack entry exactly when it comes from an [Error] call made
    while the stack-trace flag was set, and either
    [pkgerrors.MarshalStack] finds a stack trace on the error value given
    to [Error], or the field list of the call holds an error value under
    a string key.  Events of the other five severities never have one.
    The trace of the error given to [Error] is one entry, [FStack], which
    is followed at once by the error field, after the level and the
    fields attached to the Logger.  Each error-valued field of such a call
    is followed at once by a stack key of its own, [FFieldStack], with the
    trace of that error, or with nothing when it has none. *)
Theorem stack_field_iff (s : State) (l : Logger) (z : zerolog.Logger)
    (sv : Severity) (cs : list Frame) (msg : string) (kvs : list Value)
    (wr : zerolog.Written) :
  reachable s ->
  heap s !! l = Some z ->
  In (Logged wr) (emitted (Logger_call sv cs l msg kvs) s) ->
  ((exists f, In f (zerolog.wr_buf wr) /\ is_stack_field f = true) <->
     exists err, sv = SevError err /\ stacktraceEnabled s = true /\
       (is_Some (pkgerrors.MarshalStack err) \/
        exists k e, In (k, VError e) (zerolog.fieldList kvs))) /\
  ((forall err, sv <> SevError err) ->
   forall f, In f (zerolog.wr_buf wr) -> is_stack_field f = false) /\
  (forall st, In (zerolog.FStack st) (zerolog.wr_buf wr) <->
     exists err, sv = SevError err /\ stacktraceEnabled s = true /\
                 pkgerrors.MarshalStack err = Some st) /\
  (forall st, In (zerolog.FStack st) (zerolog.wr_buf wr) ->
     exists e post, sv = SevError (Some e) /\
       zerolog.wr_buf wr =
         zerolog.FLevel ErrorLevel :: zerolog.pairFields (zerolog.context z)
         ++ zerolog.FStack st :: zerolog.FError (Error_msg e) :: post) /\
  (forall o, In (zerolog.FFieldStack o) (zerolog.wr_buf wr) <->
     exists err k e, sv = SevError err /\ stacktraceEnabled s = true /\
       In (k, VError e) (zerolog.fieldList kvs) /\
       o = pkgerrors.MarshalStack (Some e)) /\
  (forall o, In (zerolog.FFieldStack o) (zerolog.wr_buf wr) ->
     exists k e pre post,
       zerolog.wr_buf wr =
         pre ++ zerolog.FPair k (VError e) :: zerolog.FFieldStack o :: post).
Proof.
  intros Hr Hl Hin. destruct (reachable_defaults s Hr) as (_ & Hm).
  destruct (emitted_event s l z sv cs msg kvs wr Hl Hin) as (_ & ->). simpl.
  assert (Hiff : forall st,
            In (zerolog.FStack st) (event_buf s z sv cs msg kvs) <->
            exists err, sv = SevError err /\ stacktraceEnabled s = true /\
                        pkgerrors.MarshalStack err = Some st).
  { intros st. rewrite stack_in_event_buf. unfold stack_fields, marshaledStack.
    rewrite Hm. split.
    - destruct sv as [| | |err| |]; try done; destruct (stacktraceEnabled s);
        simpl; try done.
      destruct (pkgerrors.MarshalStack err) as [fr|] eqn:He; [|done].
      intros [[= <-]|[]]. by exists err.
    - intros (err & -> & -> & He). rewrite He. by left. }
  assert (Hfld : forall o,
            In (zerolog.FFieldStack o) (event_buf s z sv cs msg kvs) <->
            exists err k e, sv = SevError err /\ stacktraceEnabled s = true /\
              In (k, VError e) (zerolog.fieldList kvs) /\
              o = pkgerrors.MarshalStack (Some e)).
  { intros o. rewrite fieldStack_in_event_buf. unfold call_fields.
    rewrite fieldStack_in_eventFields, stack_flag_true, Hm. split.
    - intros ((err & Hsv & Hs) & marshal & k & e & [= <-] & Hk & Ho).
      by exists err, k, e.
    - intros (err & k & e & Hsv & Hs & Hk & Ho). split; [by exists err|].
      by exists pkgerrors.MarshalStack, k, e. }
  assert (Hany : (exists f, In f (event_buf s z sv cs msg kvs) /\
                            is_stack_field f = true) <->
                 exists err, sv = SevError err /\ stacktraceEnabled s = true /\
                   (is_Some (pkgerrors.MarshalStack err) \/
                    exists k e, In (k, VError e) (zerolog.fieldList kvs))).
  { split.
    - intros (f & Hf & Hsf). destruct f; try done.
      + apply Hiff in Hf as (err & Hsv & Hs & He). exists err.
        split; [done|]. split; [done|]. left. by rewrite He.
      + apply Hfld in Hf as (err & k & e & Hsv & Hs & Hk & _). exists err.
        split; [done|]. split; [done|]. right. by exists k, e.
    - intros (err & Hsv & Hs & [[st He]|(k & e & Hk)]).
      + exists (zerolog.FStack st). split; [|done]. apply Hiff. by exists err.
      + exists (zerolog.FFieldStack (pkgerrors.MarshalStack (Some e))).
        split; [|done]. apply Hfld. by exists err, k, e. }
  split; [done|]. split; [|split; [done|split; [|split; [done|]]]].
  - intros Hsv f Hf. destruct (is_stack_field f) eqn:Hsf; [|done].
    destruct (proj1 Hany (ex_intro _ f (conj Hf Hsf))) as (err & -> & _).
    by destruct (Hsv err).
  - intros st Hst. apply Hiff in Hst as (err & -> & Hs & He).
    destruct err as [e|]; [|done].
    exists e. eexists. split; [done|].
    unfold event_buf, stack_fields, marshaledStack. rewrite Hm, Hs, He.
    reflexivity.
  - intros o Ho. apply fieldStack_in_event_buf in Ho.
    destruct (fieldStack_after_pair _ _ _ _ Ho) as (k & e & pre & post & Heq).
    unfold event_buf, call_fields. rewrite Heq.
    exists k, e,
      (zerolog.FLevel (severity_level sv)
       :: zerolog.pairFields (zerolog.context z) ++ stack_fields s sv
       ++ error_fields sv ++ pre),
      (post ++ caller_fields s cs ++ hook_fields (zerolog.hooks z)
       ++ message_fields msg).
    simpl. rewrite <- !app_assoc. simpl. reflexivity.
Qed.

(** The theorem at an [Error] call made with the stack-trace flag set, a
    nil error, and a field whose value is an error that carries a trace:
    the event has a stack entry. *)
Lemma stack_field_iff_witness :
  reachable stack_on_state /\
  heap stack_on_state !! 1%nat = Some (new_logger DebugLevel) /\
  In (Logged (zerolog.mkWritten zerolog.Stdout ErrorLevel
                [zerolog.FLevel ErrorLevel;
                 zerolog.FPair "cause" (VError traced_error);
                 zerolog.FFieldStack
                   (Some ["logger_test.go:178"; "testing.go:1595"]);
                 zerolog.FTime; zerolog.FMessage "errorMsg"]))
    (emitted (Logger_call (SevError None) ["logger_test.go:178"] 1%nat
                "errorMsg" cause_fields) stack_on_state) /\
  exists f,
    In f [zerolog.FLevel ErrorLevel;
          zerolog.FPair "cause" (VError traced_error);
          zerolog.FFieldStack (Some ["logger_test.go:178"; "testing.go:1595"]);
          zerolog.FTime; zerolog.FMessage "errorMsg"] /\
    is_stack_field f = true.
Proof.
  split; [exact reachable_stack_on_state|]. split; [reflexivity|].
  split; [left; reflexivity|].
  apply (proj2 (proj1 (stack_field_iff stack_on_state 1%nat
           (new_logger DebugLevel) (SevError None) ["logger_test.go:178"]
           "errorMsg" cause_fields
           (zerolog.mkWritten zerolog.Stdout ErrorLevel
              [zerolog.FLevel ErrorLevel;
               zerolog.FPair "cause" (VError traced_error);
               zerolog.FFieldStack
                 (Some ["logger_test.go:178"; "testing.go:1595"]);
               zerolog.FTime; zerolog.FMessage "errorMsg"])
           reachable_stack_on_state eq_refl (or_introl eq_refl)))).
  exists None. split; [reflexivity|]. split; [reflexivity|].
  right. exists "cause", traced_error. left. reflexivity.
Defined.

(** ** The caller field (claim C7) *)

Lemma caller_in_event_buf (s : State) (z : zerolog.Logger) (sv : Severity)
    (cs : list Frame) (msg : string) (kvs : list Value) (fr : Frame) :
  In (zerolog.FCaller fr) (event_buf s z sv cs msg kvs) <->
  callerEnabled s = true /\ cs !! 1%nat = Some fr.
Proof.
  unfold event_buf. simpl. rewrite !in_app_iff. split.
  - intros [H|[H|[H|[H|[H|[H|[H|H]]]]]]]; try done.
    + by apply not_in_pairFields in H.
    + unfold stack_fields in H. destruct sv; try done.
      destruct (stacktraceEnabled s); [|done].
      destruct (marshaledStack (globals s) err); [|done]. by destruct H.
    + unfold error_fields in H. destruct sv as [| | |[e|]| |]; simpl in H;
        try done. by destruct H.
    + by apply not_in_call_fields in H.
    + unfold caller_fields in H. destruct (callerEnabled s); [|done].
      destruct (cs !! 1%nat); [|done]. by destruct H as [[= <-]|[]].
    + by apply not_in_hook_fields in H.
    + unfold message_fields in H. destruct (String.eqb msg ""); [done|].
      by destruct H.
  - intros (Hc & Hfr). do 5 right. left. unfold caller_fields.
    rewrite Hc, Hfr. by left.
Qed.

(** What the code does about the caller, for both ways in.  With the flag
    unset no event has a caller field.  With it set, an event emitted by a
    package-level function names the call site of that function, and an
    event emitted by a method called directly names the caller of the
    function that made the call, one frame too far out. *)
Lemma caller_field_of_method (s : State) (l : Logger) (z : zerolog.Logger)
    (sv : Severity) (cs : list Frame) (msg : string) (kvs : list Value)
    (wr : zerolog.Written) (fr : Frame) :
  heap s !! l = Some z ->
  In (Logged wr) (emitted (Logger_call sv cs l msg kvs) s) ->
  (In (zerolog.FCaller fr) (zerolog.wr_buf wr) <->
   callerEnabled s = true /\ cs !! 1%nat = Some fr).
Proof.
  intros Hl Hin.
  destruct (emitted_event s l z sv cs msg kvs wr Hl Hin) as (_ & ->).
  apply caller_in_event_buf.
Qed.

Lemma caller_field_of_package_call (s : State) (ctx : zerolog.GoContext)
    (sv : Severity) (cs : list Frame) (msg : string) (kvs : list Value)
    (wr : zerolog.Written) (fr : Frame) :
  In (Logged wr) (emitted (package_call sv cs ctx msg kvs) s) ->
  (In (zerolog.FCaller fr) (zerolog.wr_buf wr) <->
   callerEnabled s = true /\ cs !! 0%nat = Some fr).
Proof.
  unfold emitted. rewrite package_call_eq. intros Hin.
  apply (caller_field_of_method _ _ (zerolog.Ctx (globals s) ctx) _ _ _ _ wr fr
           (alloc_new _ s)) in Hin.
  exact Hin.
Qed.

(** C7, the failing input.  With caller annotation on, [l.Info] called at
    [handler.go:10], in a function that was itself called at
    [server.go:20], emits an event whose caller field is [server.go:20];
    the package-level [Info] called at the same place names
    [handler.go:10]. *)
Lemma method_call_names_the_callers_caller :
  callerEnabled caller_on_state = true /\
  emitted (Logger_call SevInfo ["handler.go:10"; "server.go:20"] 1%nat "m" [])
    caller_on_state =
    [Logged (zerolog.mkWritten zerolog.Stdout InfoLevel
               [zerolog.FLevel InfoLevel; zerolog.FCaller "server.go:20";
                zerolog.FTime; zerolog.FMessage "m"])] /\
  emitted (package_call SevInfo ["handler.go:10"; "server.go:20"] bound_ctx "m" [])
    caller_on_state =
    [Logged (zerolog.mkWritten zerolog.Stdout InfoLevel
               [zerolog.FLevel InfoLevel; zerolog.FCaller "handler.go:10";
                zerolog.FTime; zerolog.FMessage "m"])].
Proof. repeat split. Qed.

(** ** The default Logger (claim C8) *)

(** C8, counterexample.  [Panic] called on the Logger that [FromContext]
    returns for a bare context writes its event and panics. *)
Lemma Panic_on_default_logger_panics :
  zerolog.ctxLogger zerolog.Background = None /\
  FromContext zerolog.Background started_state =
    Ret 1%nat (final (FromContext zerolog.Background started_state)) /\
  stopped (Logger_call SevPanic ["main.go:10"] 1%nat "boom" []
             (final (FromContext zerolog.Background started_state))) =
    Some (Panicked "boom").
Proof. repeat split. Qed.

(** C8, as amended.  In a state the process can reach, the engine's default
    context logger is the one [init] built with [New ErrorLevel]: level
    [ErrorLevel], writing to standard output.  For a context with no
    logger bound in its chain [FromContext] returns a Logger that wraps
    it, and [Debug], [Info], [Warn] and [Error] calls on that Logger
    return; [Fatal] and [Panic] on it do not return, as on any Logger. *)
Theorem FromContext_default (s : State) (ctx : zerolog.GoContext) :
  reachable s ->
  zerolog.ctxLogger ctx = None ->
  zerolog.DefaultContextLogger (globals s) = Some (new_logger ErrorLevel) /\
  zerolog.DefaultContextLogger (globals started_state) =
    Some (new_logger ErrorLevel) /\
  zerolog.w (new_logger ErrorLevel) = zerolog.Stdout /\
  zerolog.level (new_logger ErrorLevel) = ErrorLevel /\
  exists l s',
    FromContext ctx s = Ret l s' /\
    heap s' !! l = Some (new_logger ErrorLevel) /\
    (forall sv cs msg kvs,
       severity_done sv = None ->
       stopped (Logger_call sv cs l msg kvs s') = None) /\
    (forall sv cs msg kvs,
       severity_done sv <> None ->
       stopped (Logger_call sv cs l msg kvs s') <> None).
Proof.
  intros Hr Hctx. destruct (reachable_defaults s Hr) as (Hd & _).
  split; [done|]. do 3 (split; [done|]).
  unfold FromContext, mbind, M_bind, get. rewrite alloc_eq.
  do 2 eexists. split; [reflexivity|].
  assert (Hz : zerolog.Ctx (globals s) ctx = new_logger ErrorLevel)
    by (unfold zerolog.Ctx; by rewrite Hctx, Hd).
  rewrite Hz. split; [apply alloc_new|]. split.
  - intros sv cs msg kvs Hsv.
    rewrite (Logger_call_stopped _ _ (new_logger ErrorLevel)) by apply alloc_new.
    by rewrite Hsv.
  - intros sv cs msg kvs Hsv.
    rewrite (Logger_call_stopped _ _ (new_logger ErrorLevel)) by apply alloc_new.
    by destruct sv.
Qed.

(** The theorem right after [init], for the background context. *)
Lemma FromContext_default_witness :
  reachable started_state /\
  zerolog.ctxLogger zerolog.Background = None /\
  exists l s',
    FromContext zerolog.Background started_state = Ret l s' /\
    heap s' !! l = Some (new_logger ErrorLevel) /\
    (forall sv cs msg kvs,
       severity_done sv = None ->
       stopped (Logger_call sv cs l msg kvs s') = None) /\
    (forall sv cs msg kvs,
       severity_done sv <> None ->
       stopped (Logger_call sv cs l msg kvs s') <> None).
Proof.
  split; [exact reachable_start|]. split; [reflexivity|].
  apply (FromContext_default started_state zerolog.Background reachable_start
           eq_refl).
Defined.

(** ** Package-level functions (claim C9) *)

(** C9, the failing input.  With caller annotation on, the package-level
    [Info] and the method [Info] of [FromContext ctx], called with the
    same arguments at the same place, [handler.go:10] in a function
    called at [server.go:20], do not write the same event: the first names
    [handler.go:10] as the caller, the second [server.go:20]. *)
Lemma forwarding_differs_in_caller_field :
  callerEnabled caller_on_state = true /\
  emitted (package_call SevInfo ["handler.go:10"; "server.go:20"] bound_ctx
             "m" []) caller_on_state =
    [Logged (zerolog.mkWritten zerolog.Stdout InfoLevel
               [zerolog.FLevel InfoLevel; zerolog.FCaller "handler.go:10";
                zerolog.FTime; zerolog.FMessage "m"])] /\
  emitted (forwarded_call SevInfo ["handler.go:10"; "server.go:20"] bound_ctx
             "m" []) caller_on_state =
    [Logged (zerolog.mkWritten zerolog.Stdout InfoLevel
               [zerolog.FLevel InfoLevel; zerolog.FCaller "server.go:20";
                zerolog.FTime; zerolog.FMessage "m"])].
Proof. repeat split. Qed.

(** ** Binding and retrieving (claim C10) *)

(** C10, counterexample.  A Logger at the engine's [Disabled] level bound
    to a context without a logger is not stored: [ToContext] returns the
    context unchanged, and [FromContext] on the result wraps the default
    logger, at [ErrorLevel]. *)
Lemma disabled_logger_is_not_bound :
  level_of disabled_state 1%nat = Some zerolog.Disabled /\
  ToContext zerolog.Background 1%nat disabled_state =
    Ret zerolog.Background disabled_state /\
  FromContext zerolog.Background disabled_state =
    Ret 2%nat (final (FromContext zerolog.Background disabled_state)) /\
  level_of (final (FromContext zerolog.Background disabled_state)) 2%nat =
    Some ErrorLevel.
Proof. repeat split. Qed.

(** C10, as amended.  For a Logger whose level is not [Disabled], or a
    context that already has a logger in its chain, binding the Logger
    and retrieving from the result gives a Logger that wraps the same
    engine logger; the new binding is the one found, whatever the chain
    held before. *)
Theorem context_round_trip (s : State) (ctx : zerolog.GoContext) (l : Logger)
    (z : zerolog.Logger) :
  heap s !! l = Some z ->
  zerolog.level z <> zerolog.Disabled \/ zerolog.ctxLogger ctx <> None ->
  exists ctx' l' s',
    ToContext ctx l s = Ret ctx' s /\
    zerolog.ctxLogger ctx' = Some z /\
    FromContext ctx' s = Ret l' s' /\
    heap s' !! l' = Some z.
Proof.
  intros Hl Hok.
  assert (Hc : zerolog.ctxLogger (zerolog.Logger_WithContext z ctx) = Some z).
  { unfold zerolog.Logger_WithContext.
    destruct (zerolog.ctxLogger ctx) eqn:Hctx; [done|].
    destruct (Z.eqb_spec (zerolog.level z) zerolog.Disabled); [|done].
    by destruct Hok. }
  unfold ToContext, FromContext, mbind, M_bind, deref, get. rewrite Hl.
  do 3 eexists. split; [reflexivity|]. split; [exact Hc|].
  rewrite alloc_eq. split; [reflexivity|].
  unfold zerolog.Ctx. rewrite Hc. apply alloc_new.
Qed.

(** The theorem at the Logger of [json_state] and the background
    context. *)
Lemma context_round_trip_witness :
  heap json_state !! 1%nat = Some (new_logger DebugLevel) /\
  (zerolog.level (new_logger DebugLevel) <> zerolog.Disabled \/
   zerolog.ctxLogger zerolog.Background <> None) /\
  exists ctx' l' s',
    ToContext zerolog.Background 1%nat json_state = Ret ctx' json_state /\
    zerolog.ctxLogger ctx' = Some (new_logger DebugLevel) /\
    FromContext ctx' json_state = Ret l' s' /\
    heap s' !! l' = Some (new_logger DebugLevel).
Proof.
  split; [reflexivity|]. split; [left; discriminate|].
  apply (context_round_trip json_state zerolog.Background 1%nat
           (new_logger DebugLevel)); [reflexivity | left; discriminate].
Defined.

(** ** Further properties: parsing *)

(** X1.  Whatever the string, [ParseLevel] returns, and the level it
    returns lies between [DebugLevel] and [PanicLevel]; it changes nothing
    of the state but the output. *)
Theorem ParseLevel_in_allowed_range (levelStr : string) (s : State) :
  exists lvl err s',
    ParseLevel levelStr s = Ret (lvl, err) s' /\
    minAllowedLevel <= lvl <= maxAllowedLevel /\
    same_settings s s' /\ heap s' = heap s.
Proof.
  unfold ParseLevel.
  destruct (zerolog.ParseLevel levelStr) as [v [e|]].
  - do 3 eexists. split; [reflexivity|]. split; [|done].
    by vm_compute.
  - destruct (Z.ltb_spec v minAllowedLevel).
    + do 3 eexists. split; [reflexivity|]. split; [|done]. by vm_compute.
    + destruct (Z.ltb_spec maxAllowedLevel v).
      * do 3 eexists. split; [reflexivity|]. split; [|done]. by vm_compute.
      * do 3 eexists. split; [reflexivity|]. split; [lia|done].
Qed.

(** X2.  The name of each of the six levels, as the engine prints it, and
    its decimal form parse back to that level, with a nil error and
    nothing printed. *)
Theorem ParseLevel_names_round_trip (L : Level) (s : State) :
  DebugLevel <= L <= PanicLevel ->
  ParseLevel (zerolog.Level_String L) s = Ret (L, None) s /\
  ParseLevel (Itoa L) s = Ret (L, None) s.
Proof.
  unfold DebugLevel, PanicLevel, zerolog.DebugLevel, zerolog.PanicLevel.
  intros HL.
  assert (L = 0 \/ L = 1 \/ L = 2 \/ L = 3 \/ L = 4 \/ L = 5) as Hcases by lia.
  destruct Hcases as [->|[->|[->|[->|[->| ->]]]]]; by split.
Qed.

(** The theorem at [WarnLevel]. *)
Lemma ParseLevel_names_round_trip_witness :
  DebugLevel <= WarnLevel <= PanicLevel /\
  ParseLevel "warn" started_state = Ret (WarnLevel, None) started_state /\
  ParseLevel "2" started_state = Ret (WarnLevel, None) started_state.
Proof.
  split; [by vm_compute|].
  apply (ParseLevel_names_round_trip WarnLevel started_state). by vm_compute.
Defined.

(** X3.  A string the engine's parser accepts with a value between
    [DebugLevel] and [PanicLevel] gives that value, a nil error, and no
    change of state: nothing is printed. *)
Theorem ParseLevel_keeps_value_in_range (levelStr : string)
    (v : zerolog.Level) (s : State) :
  zerolog.ParseLevel levelStr = (v, None) ->
  DebugLevel <= v <= PanicLevel ->
  ParseLevel levelStr s = Ret (v, None) s.
Proof.
  intros Hp Hv. unfold ParseLevel. rewrite Hp.
  unfold minAllowedLevel, maxAllowedLevel.
  destruct (Z.ltb_spec v DebugLevel); [lia|].
  by destruct (Z.ltb_spec PanicLevel v); [lia|].
Qed.

(** The theorem at the string [FATAL]: letter case does not matter. *)
Lemma ParseLevel_keeps_value_in_range_witness :
  zerolog.ParseLevel "FATAL" = (FatalLevel, None) /\
  DebugLevel <= FatalLevel <= PanicLevel /\
  ParseLevel "FATAL" started_state = Ret (FatalLevel, None) started_state.
Proof.
  split; [reflexivity|]. split; [by vm_compute|].
  apply (ParseLevel_keeps_value_in_range "FATAL" FatalLevel started_state);
    [reflexivity | by vm_compute].
Defined.

(** ** Further properties: emission *)

(** Without an error value among the fields the stack switch changes
    nothing. *)
Lemma eventFields_no_error (g : zerolog.Globals) (b : bool)
    (kvs : list Value) :
  (forall k e, ~ In (k, VError e) (zerolog.fieldList kvs)) ->
  zerolog.eventFields g b kvs = zerolog.pairFields (zerolog.fieldList kvs).
Proof.
  induction kvs as [|x|key val rest IH] using pairs_ind; [done|done|].
  simpl. destruct key as [k| | |]; try exact IH. simpl. intros Hno.
  rewrite IH; [|by intros k' e Hin; apply (Hno k' e); right].
  destruct val as [| | |e]; try done. destruct (Hno k e). by left.
Qed.

(** X4.  A method call on a Logger writes nothing when the level filter
    refuses its severity, and otherwise exactly one event, to the writer
    of the Logger and at the level of the call.  The buffer of the event
    is, in this order: the level, the fields attached to the Logger, the
    stack and the error (for [Error]), the fields of the call, the caller,
    one time entry for each hook, and the message unless it is empty.
    The fields of the call are its pairs, in order; in an [Error] call
    made with the stack-trace flag set, each pair whose value is an error
    is followed by a stack key, and this is the only case in which the
    fields of the call are more than its pairs.  Nothing else of the state
    changes. *)
Theorem method_writes_one_event (s : State) (l : Logger) (z : zerolog.Logger)
    (sv : Severity) (cs : list Frame) (msg : string) (kvs : list Value) :
  heap s !! l = Some z ->
  emitted (Logger_call sv cs l msg kvs) s =
    (if zerolog.should (globals s) z (severity_level sv)
     then [Logged (zerolog.mkWritten (zerolog.w z) (severity_level sv)
                     (zerolog.FLevel (severity_level sv)
                      :: zerolog.pairFields (zerolog.context z)
                      ++ stack_fields s sv ++ error_fields sv
                      ++ call_fields s sv kvs
                      ++ caller_fields s cs
                      ++ hook_fields (zerolog.hooks z)
                      ++ message_fields msg))]
     else []) /\
  ((forall err, sv <> SevError err) \/ stacktraceEnabled s = false \/
   (forall k e, ~ In (k, VError e) (zerolog.fieldList kvs)) ->
   call_fields s sv kvs = zerolog.pairFields (zerolog.fieldList kvs)) /\
  (forall k v rest,
     call_fields s sv (VString k :: v :: rest) =
       zerolog.FPair k v
       :: match v with
          | VError e =>
              if stack_flag s sv
              then match zerolog.ErrorStackMarshaler (globals s) with
                   | Some marshal => [zerolog.FFieldStack (marshal (Some e))]
                   | None => []
                   end
              else []
          | _ => []
          end ++ call_fields s sv rest) /\
  out (final (Logger_call sv cs l msg kvs s)) =
    out s ++ emitted (Logger_call sv cs l msg kvs) s /\
  heap (final (Logger_call sv cs l msg kvs s)) = heap s /\
  same_settings s (final (Logger_call sv cs l msg kvs s)).
Proof.
  intros Hl. split; [by apply Logger_call_emitted|]. split; [|split].
  - unfold call_fields. intros [Hsv|[Hs|Hno]].
    + replace (stack_flag s sv) with false; [apply eventFields_off|].
      destruct sv; try done. by destruct (Hsv err).
    + replace (stack_flag s sv) with false; [apply eventFields_off|].
      by destruct sv.
    + by apply eventFields_no_error.
  - intros k v rest. unfold call_fields. simpl. by destruct v.
  - unfold emitted.
    destruct (Logger_call_final s l sv cs msg kvs) as (X & ->). simpl.
    by rewrite drop_app_length.
Qed.

(** The theorem at an [Info] call with one pair, the caller flag set. *)
Lemma method_writes_one_event_witness :
  heap caller_on_state !! 1%nat = Some (new_logger DebugLevel) /\
  emitted (Logger_call SevInfo ["handler.go:10"; "server.go:20"] 1%nat "m"
             [VString "k"; VInt 7]) caller_on_state =
    [Logged (zerolog.mkWritten zerolog.Stdout InfoLevel
               [zerolog.FLevel InfoLevel; zerolog.FPair "k" (VInt 7);
                zerolog.FCaller "server.go:20"; zerolog.FTime;
                zerolog.FMessage "m"])].
Proof.
  split; [reflexivity|].
  apply (proj1 (method_writes_one_event caller_on_state 1%nat
                  (new_logger DebugLevel) SevInfo
                  ["handler.go:10"; "server.go:20"] "m" [VString "k"; VInt 7]
                  eq_refl)).
Defined.

(** X5.  How a method call on a Logger ends does not depend on the fields,
    the flags or the writer: [Debug], [Info], [Warn] and [Error] return;
    [Fatal] ends the process with exit code 1; [Panic] panics, with the
    message when its event was written and with the empty string when the
    level filter refused it. *)
Theorem method_ending (s : State) (l : Logger) (z : zerolog.Logger)
    (sv : Severity) (cs : list Frame) (msg : string) (kvs : list Value) :
  heap s !! l = Some z ->
  stopped (Logger_call sv cs l msg kvs s) =
    match sv with
    | SevFatal => Some (Exited 1)
    | SevPanic =>
        Some (Panicked (if zerolog.should (globals s) z PanicLevel
                        then msg else ""))
    | _ => None
    end.
Proof.
  intros Hl. rewrite (Logger_call_stopped s l z) by done.
  destruct sv; try done.
Qed.

(** The theorem at a [Panic] call the global level refuses: nothing is
    written, and the call panics with the empty string. *)
Lemma method_ending_witness :
  heap silent_state !! 1%nat = Some (new_logger DebugLevel) /\
  stopped (Logger_call SevPanic ["main.go:10"] 1%nat "boom" [] silent_state) =
    Some (Panicked "") /\
  emitted (Logger_call SevPanic ["main.go:10"] 1%nat "boom" []) silent_state = [].
Proof.
  split; [reflexivity|]. split; [|reflexivity].
  apply (method_ending silent_state 1%nat (new_logger DebugLevel) SevPanic
           ["main.go:10"] "boom" []).
  reflexivity.
Defined.

(** X6.  After [SetGlobalLevel L], no call of a severity below [L] writes
    anything, through whatever Logger, method or package-level function it
    is made; the setter itself writes nothing and touches no Logger. *)
Theorem SetGlobalLevel_is_a_floor (L : Level) (s : State) (sv : Severity)
    (cs : list Frame) (msg : string) (kvs : list Value) :
  severity_level sv < L ->
  SetGlobalLevel L s = Ret tt (final (SetGlobalLevel L s)) /\
  out (final (SetGlobalLevel L s)) = out s /\
  heap (final (SetGlobalLevel L s)) = heap s /\
  (forall l, emitted (Logger_call sv cs l msg kvs) (final (SetGlobalLevel L s)) = []) /\
  (forall ctx,
     emitted (package_call sv cs ctx msg kvs) (final (SetGlobalLevel L s)) = []).
Proof.
  intros Hlt. do 3 (split; [done|]).
  assert (Hm : forall cs' s' l, zerolog.gLevel (globals s') = L ->
                 emitted (Logger_call sv cs' l msg kvs) s' = []).
  { intros cs' s' l Hg. destruct (heap s' !! l) as [z|] eqn:Hl.
    - rewrite (Logger_call_emitted s' l z) by done.
      by rewrite should_false_global by (rewrite Hg; lia).
    - unfold emitted. rewrite Logger_call_nil by done. simpl.
      by rewrite drop_all. }
  split.
  - intros l. by apply Hm.
  - intros ctx. unfold emitted. rewrite package_call_eq.
    exact (Hm (package_frame sv :: cs)
             (set_heap (heap (final (SetGlobalLevel L s))
                        ++ [zerolog.Ctx (globals (final (SetGlobalLevel L s))) ctx])
                (final (SetGlobalLevel L s)))
             (length (heap (final (SetGlobalLevel L s)))) eq_refl).
Qed.

(** The theorem at the level [Disabled], above all six severities. *)
Lemma SetGlobalLevel_is_a_floor_witness :
  severity_level SevPanic < zerolog.Disabled /\
  (forall l, emitted (Logger_call SevPanic ["main.go:10"] l "boom" [])
               (final (SetGlobalLevel zerolog.Disabled json_state)) = []) /\
  (forall ctx, emitted (package_call SevPanic ["main.go:10"] ctx "boom" [])
                 (final (SetGlobalLevel zerolog.Disabled json_state)) = []).
Proof.
  split; [reflexivity|].
  apply (SetGlobalLevel_is_a_floor zerolog.Disabled json_state SevPanic
           ["main.go:10"] "boom" []).
  reflexivity.
Defined.

(** ** Further properties: how derivations and options compose *)

Lemma fieldList_app_even (n : nat) (a b : list Value) :
  length a = (2 * n)%nat ->
  zerolog.fieldList (a ++ b) = zerolog.fieldList a ++ zerolog.fieldList b.
Proof.
  revert a. induction n as [|n IH]; intros a Ha.
  - by destruct a.
  - destruct a as [|k [|v a]]; simpl in Ha; try lia.
    simpl. rewrite (IH a) by lia. by destruct k.
Qed.

Lemma result_logger_With (s : State) (l : Logger) (z : zerolog.Logger)
    (kvs : list Value) :
  heap s !! l = Some z ->
  result_logger (Logger_With l kvs) s = Some (zerolog.Context_Fields z kvs).
Proof.
  intros Hl. unfold result_logger. rewrite (Logger_With_eq s l z) by done.
  apply alloc_new.
Qed.

Lemma result_logger_Level (s : State) (l : Logger) (z : zerolog.Logger)
    (level : Level) :
  heap s !! l = Some z ->
  result_logger (Logger_Level l level) s = Some (zerolog.Logger_Level z level).
Proof.
  intros Hl. unfold result_logger. rewrite (Logger_Level_eq s l z) by done.
  apply alloc_new.
Qed.

Lemma result_logger_With_then (s : State) (l : Logger) (z : zerolog.Logger)
    (kvs : list Value) (k : Logger -> M Logger) :
  heap s !! l = Some z ->
  result_logger (l1 ← Logger_With l kvs; k l1) s =
  result_logger (k (length (heap s)))
    (set_heap (heap s ++ [zerolog.Context_Fields z kvs]) s).
Proof.
  intros Hl. unfold result_logger, mbind, M_bind.
  by rewrite (Logger_With_eq s l z).
Qed.

Lemma result_logger_Level_then (s : State) (l : Logger) (z : zerolog.Logger)
    (level : Level) (k : Logger -> M Logger) :
  heap s !! l = Some z ->
  result_logger (l1 ← Logger_Level l level; k l1) s =
  result_logger (k (length (heap s)))
    (set_heap (heap s ++ [zerolog.Logger_Level z level]) s).
Proof.
  intros Hl. unfold result_logger, mbind, M_bind.
  by rewrite (Logger_Level_eq s l z).
Qed.

(** X7.  Two [With] calls in a row attach what one [With] call with the
    two field lists joined attaches, provided the first list has an even
    number of entries; a key left without a value at the end of a list is
    dropped, so adding one changes nothing. *)
Theorem With_twice_is_With_joined (s : State) (l : Logger)
    (z : zerolog.Logger) (kvs1 kvs2 : list Value) (n : nat) :
  heap s !! l = Some z ->
  length kvs1 = (2 * n)%nat ->
  result_logger (l1 ← Logger_With l kvs1; Logger_With l1 kvs2) s =
    result_logger (Logger_With l (kvs1 ++ kvs2)) s /\
  (forall key, result_logger (Logger_With l (kvs1 ++ [key])) s =
               result_logger (Logger_With l kvs1) s).
Proof.
  intros Hl Hn. split.
  - rewrite (result_logger_With_then s l z) by done.
    rewrite (result_logger_With _ _ (zerolog.Context_Fields z kvs1))
      by apply alloc_new.
    rewrite (result_logger_With s l z) by done.
    unfold zerolog.Context_Fields, zerolog.appendFields. simpl.
    by rewrite (fieldList_app_even n), app_assoc.
  - intros key. rewrite !(result_logger_With s l z) by done.
    unfold zerolog.Context_Fields, zerolog.appendFields.
    rewrite (fieldList_app_even n) by done. simpl. by rewrite app_nil_r.
Qed.

(** The theorem at the Logger of [json_state] and two pairs. *)
Lemma With_twice_is_With_joined_witness :
  heap json_state !! 1%nat = Some (new_logger DebugLevel) /\
  length [VString "a"; VInt 1] = (2 * 1)%nat /\
  result_logger (l1 ← Logger_With 1%nat [VString "a"; VInt 1];
                 Logger_With l1 [VString "b"; VInt 2]) json_state =
    result_logger (Logger_With 1%nat ([VString "a"; VInt 1]
                                      ++ [VString "b"; VInt 2])) json_state.
Proof.
  split; [reflexivity|]. split; [reflexivity|].
  apply (proj1 (With_twice_is_With_joined json_state 1%nat
                  (new_logger DebugLevel) [VString "a"; VInt 1]
                  [VString "b"; VInt 2] 1%nat eq_refl eq_refl)).
Defined.

(** X8.  [Level] keeps the writer, the attached fields and the hooks of
    the Logger, [With] keeps its writer, level and hooks; hence of two
    [Level] calls in a row the second decides, and [Level] and [With] may
    be called in either order. *)
Theorem Level_and_With_compose (s : State) (l : Logger) (z : zerolog.Logger)
    (L1 L2 : Level) (kvs : list Value) :
  heap s !! l = Some z ->
  result_logger (l1 ← Logger_Level l L1; Logger_Level l1 L2) s =
    result_logger (Logger_Level l L2) s /\
  result_logger (l1 ← Logger_Level l L1; Logger_With l1 kvs) s =
    result_logger (l1 ← Logger_With l kvs; Logger_Level l1 L1) s /\
  result_logger (l1 ← Logger_Level l L1; Logger_With l1 kvs) s =
    Some {| zerolog.w := zerolog.w z; zerolog.level := L1;
            zerolog.context := zerolog.context z ++ zerolog.fieldList kvs;
            zerolog.hooks := zerolog.hooks z |}.
Proof.
  intros Hl.
  rewrite !(result_logger_Level_then s l z), (result_logger_With_then s l z)
    by done.
  rewrite (result_logger_Level
             (set_heap (heap s ++ [zerolog.Logger_Level z L1]) s)
             (length (heap s)) (zerolog.Logger_Level z L1) L2 (alloc_new _ s)).
  rewrite (result_logger_With
             (set_heap (heap s ++ [zerolog.Logger_Level z L1]) s)
             (length (heap s)) (zerolog.Logger_Level z L1) kvs (alloc_new _ s)).
  rewrite (result_logger_Level
             (set_heap (heap s ++ [zerolog.Context_Fields z kvs]) s)
             (length (heap s)) (zerolog.Context_Fields z kvs) L1 (alloc_new _ s)).
  rewrite (result_logger_Level s l z L2 Hl).
  done.
Qed.

(** The theorem at the Logger of [json_state]. *)
Lemma Level_and_With_compose_witness :
  heap json_state !! 1%nat = Some (new_logger DebugLevel) /\
  result_logger (l1 ← Logger_Level 1%nat WarnLevel;
                 Logger_With l1 [VString "k"; VInt 1]) json_state =
    result_logger (l1 ← Logger_With 1%nat [VString "k"; VInt 1];
                   Logger_Level l1 WarnLevel) json_state.
Proof.
  split; [reflexivity|].
  apply (proj1 (proj2 (Level_and_With_compose json_state 1%nat
                         (new_logger DebugLevel) WarnLevel ErrorLevel
                         [VString "k"; VInt 1] eq_refl))).
Defined.

Lemma fold_rebound (os : list OutputOption) (wr : zerolog.Writer)
    (level : zerolog.Level) (ctx : list (string * Value))
    (hs : list zerolog.Hook) :
  fold_left (fun z o => rebound o z) os
    {| zerolog.w := wr; zerolog.level := level; zerolog.context := ctx;
       zerolog.hooks := hs |} =
  {| zerolog.w := match last os with
                  | Some o => option_writer o
                  | None => wr
                  end;
     zerolog.level := level; zerolog.context := ctx; zerolog.hooks := hs |}.
Proof.
  revert wr. induction os as [|o os IH]; intros wr; [done|].
  simpl. unfold rebound at 2, zerolog.Logger_Output. simpl. rewrite IH.
  destruct os as [|o' os']; [done|].
  change (last (o :: o' :: os')) with (last (o' :: os')).
  destruct (last (o' :: os')) eqn:Hlast; [done|].
  by apply last_None in Hlast.
Qed.

Lemma applyOptions_fold (os : list OutputOption) (s : State) (l : Logger)
    (z : zerolog.Logger) :
  heap s !! l = Some z ->
  applyOptions (map output_option os) l s =
    Ret tt (set_heap (<[l := fold_left (fun z o => rebound o z) os z]> (heap s)) s).
Proof.
  revert s z. induction os as [|o os IH]; intros s z Hl.
  - simpl. unfold mret, M_ret. rewrite list_insert_id by done. by destruct s.
  - simpl. unfold mbind, M_bind. rewrite (output_option_eq o s l z) by done.
    rewrite (IH _ (rebound o z)).
    + simpl. by rewrite list_insert_insert_eq.
    + simpl. apply list_lookup_insert_eq. by apply lookup_lt_Some in Hl.
Qed.

(** X9.  [New] never fails and adds one Logger, whatever options it is
    given: at the level asked for, with no attached fields and the
    timestamp hook, writing to standard output without options, and with
    options to the writer of the last one alone, since each output option
    replaces the writer.  The output, the flags and the Loggers that exist
    are left as they were. *)
Theorem New_options_last_wins (level : Level) (os : list OutputOption)
    (s : State) :
  New level (map output_option os) s =
    Ret (length (heap s))
      (set_heap
         (heap s ++ [{| zerolog.w := writer_after os; zerolog.level := level;
                        zerolog.context := [];
                        zerolog.hooks := [zerolog.timestampHook] |}]) s).
Proof.
  unfold New, mbind, M_bind. rewrite alloc_eq.
  rewrite (applyOptions_fold os _ _ _ (alloc_new _ s)).
  unfold mret, M_ret. simpl.
  replace (length (heap s)) with (length (heap s) + 0)%nat at 2 by lia.
  rewrite insert_app_r. simpl.
  unfold zerolog.Context_Logger, zerolog.Context_Timestamp, zerolog.Logger_With,
    zerolog.Logger_Level, zerolog.New. simpl.
  by rewrite fold_rebound.
Qed.

(** X10.  Applying an output option to a Logger that already had one
    applied gives what applying the second alone gives; the unexported
    [test] does what the plain-text option does. *)
Theorem output_options_override (s : State) (l : Logger) (z : zerolog.Logger)
    (o1 o2 : OutputOption) :
  heap s !! l = Some z ->
  (output_option o1 l ;; output_option o2 l) s = output_option o2 l s /\
  test l s = WithPlainText l s /\
  (output_option o1 l ;; test l) s = WithPlainText l s.
Proof.
  intros Hl.
  assert (Hin : forall o, heap (set_heap (<[l := rebound o z]> (heap s)) s) !! l
                          = Some (rebound o z)).
  { intros o. simpl. apply list_lookup_insert_eq. by apply lookup_lt_Some in Hl. }
  split; [|split; [done|]].
  - unfold mbind, M_bind. rewrite (output_option_eq o1 s l z) by done.
    rewrite (output_option_eq o2 _ l (rebound o1 z)) by apply Hin.
    rewrite (output_option_eq o2 s l z) by done.
    simpl. by rewrite list_insert_insert_eq.
  - unfold mbind, M_bind. rewrite (output_option_eq o1 s l z) by done.
    change (test l) with (output_option PlainText l).
    change (WithPlainText l s) with (output_option PlainText l s).
    rewrite (output_option_eq PlainText _ l (rebound o1 z)) by apply Hin.
    rewrite (output_option_eq PlainText s l z) by done.
    simpl. by rewrite list_insert_insert_eq.
Qed.

(** The theorem at the Logger of [json_state]: write-to-file, then plain
    text. *)
Lemma output_options_override_witness :
  heap json_state !! 1%nat = Some (new_logger DebugLevel) /\
  (output_option (ToFile 3%nat) 1%nat ;; output_option PlainText 1%nat) json_state =
    output_option PlainText 1%nat json_state.
Proof.
  split; [reflexivity|].
  apply (proj1 (output_options_override json_state 1%nat (new_logger DebugLevel)
                  (ToFile 3%nat) PlainText eq_refl)).
Defined.

(** ** Further properties: contexts *)

Lemma ToContext_eq (s : State) (ctx : zerolog.GoContext) (l : Logger)
    (z : zerolog.Logger) :
  heap s !! l = Some z ->
  ToContext ctx l s = Ret (zerolog.Logger_WithContext z ctx) s.
Proof. intros Hl. unfold ToContext, mbind, M_bind, deref. by rewrite Hl. Qed.

Lemma WithContext_stores (z : zerolog.Logger) (ctx : zerolog.GoContext) :
  zerolog.level z <> zerolog.Disabled \/ zerolog.ctxLogger ctx <> None ->
  zerolog.ctxLogger (zerolog.Logger_WithContext z ctx) = Some z.
Proof.
  intros Hok. unfold zerolog.Logger_WithContext.
  destruct (zerolog.ctxLogger ctx) eqn:Hctx; [done|].
  destruct (Z.eqb_spec (zerolog.level z) zerolog.Disabled); [|done].
  by destruct Hok.
Qed.

(** X11.  A context holds the engine logger the Logger had when it was
    bound.  An output option applied afterwards, to the Logger that was
    bound or to a Logger that [FromContext] returned, does not change
    what [FromContext] returns for that context; and [ToContext] itself
    changes nothing of the state. *)
Theorem context_keeps_what_was_bound (s : State) (ctx : zerolog.GoContext)
    (l : Logger) (z : zerolog.Logger) (o : OutputOption) :
  heap s !! l = Some z ->
  zerolog.level z <> zerolog.Disabled \/ zerolog.ctxLogger ctx <> None ->
  exists ctx',
    ToContext ctx l s = Ret ctx' s /\
    result_logger (output_option o l ;; FromContext ctx') s = Some z /\
    result_logger (l' ← FromContext ctx'; output_option o l' ;;
                   FromContext ctx') s = Some z /\
    (l' ← FromContext ctx'; output_option o l' ;; deref l) s =
      Ret z (final ((l' ← FromContext ctx'; output_option o l') s)).
Proof.
  intros Hl Hok. pose proof (WithContext_stores z ctx Hok) as Hc.
  eexists. split; [by apply ToContext_eq|].
  assert (HF : forall s', FromContext (zerolog.Logger_WithContext z ctx) s' =
                 Ret (length (heap s')) (set_heap (heap s' ++ [z]) s')).
  { intros s'. unfold FromContext, mbind, M_bind, get.
    rewrite alloc_eq. unfold zerolog.Ctx. by rewrite Hc. }
  unfold result_logger, mbind, M_bind.
  rewrite (output_option_eq o s l z) by done.
  rewrite !HF.
  rewrite (output_option_eq o (set_heap (heap s ++ [z]) s) (length (heap s)) z)
    by apply alloc_new.
  rewrite HF.
  split; [apply alloc_new|]. split; [apply alloc_new|].
  unfold deref. simpl.
  rewrite list_lookup_insert_ne by (apply lookup_lt_Some in Hl; lia).
  by rewrite (lookup_app_l_Some _ _ _ _ Hl).
Qed.

(** The theorem at the Logger of [json_state], the background context and
    the plain-text option. *)
Lemma context_keeps_what_was_bound_witness :
  heap json_state !! 1%nat = Some (new_logger DebugLevel) /\
  exists ctx',
    ToContext zerolog.Background 1%nat json_state = Ret ctx' json_state /\
    result_logger (output_option PlainText 1%nat ;; FromContext ctx') json_state =
      Some (new_logger DebugLevel) /\
    result_logger (l' ← FromContext ctx'; output_option PlainText l' ;;
                   FromContext ctx') json_state = Some (new_logger DebugLevel) /\
    (l' ← FromContext ctx'; output_option PlainText l' ;; deref 1%nat) json_state =
      Ret (new_logger DebugLevel)
        (final ((l' ← FromContext ctx'; output_option PlainText l') json_state)).
Proof.
  split; [reflexivity|].
  apply (context_keeps_what_was_bound json_state zerolog.Background 1%nat
           (new_logger DebugLevel) PlainText eq_refl).
  left. discriminate.
Defined.

(** X12.  After [ToContext ctx l], a package-level call on the context
    returned writes what the method of the same name on [l] writes when
    called from inside the package-level function, and ends the same
    way. *)
Theorem package_call_on_bound_context (s : State) (ctx : zerolog.GoContext)
    (l : Logger) (z : zerolog.Logger) (sv : Severity) (cs : list Frame)
    (msg : string) (kvs : list Value) :
  heap s !! l = Some z ->
  zerolog.level z <> zerolog.Disabled \/ zerolog.ctxLogger ctx <> None ->
  exists ctx',
    ToContext ctx l s = Ret ctx' s /\
    emitted (package_call sv cs ctx' msg kvs) s =
      emitted (Logger_call sv (package_frame sv :: cs) l msg kvs) s /\
    stopped (package_call sv cs ctx' msg kvs s) =
      stopped (Logger_call sv (package_frame sv :: cs) l msg kvs s).
Proof.
  intros Hl Hok. pose proof (WithContext_stores z ctx Hok) as Hc.
  eexists. split; [by apply ToContext_eq|].
  assert (Hz : zerolog.Ctx (globals s) (zerolog.Logger_WithContext z ctx) = z)
    by (unfold zerolog.Ctx; by rewrite Hc).
  unfold emitted at 1. rewrite package_call_eq, Hz. split.
  - change (emitted (Logger_call sv (package_frame sv :: cs) (length (heap s))
                       msg kvs) (set_heap (heap s ++ [z]) s) =
            emitted (Logger_call sv (package_frame sv :: cs) l msg kvs) s).
    rewrite (Logger_call_emitted _ _ z) by apply alloc_new.
    by rewrite (Logger_call_emitted s l z).
  - rewrite (Logger_call_stopped _ _ z) by apply alloc_new.
    by rewrite (Logger_call_stopped s l z).
Qed.

(** The theorem at the Logger of [json_state] and the background
    context. *)
Lemma package_call_on_bound_context_witness :
  heap json_state !! 1%nat = Some (new_logger DebugLevel) /\
  exists ctx',
    ToContext zerolog.Background 1%nat json_state = Ret ctx' json_state /\
    emitted (package_call SevWarn ["main.go:10"] ctx' "m" []) json_state =
      emitted (Logger_call SevWarn (package_frame SevWarn :: ["main.go:10"])
                 1%nat "m" []) json_state /\
    stopped (package_call SevWarn ["main.go:10"] ctx' "m" [] json_state) =
      stopped (Logger_call SevWarn (package_frame SevWarn :: ["main.go:10"])
                 1%nat "m" [] json_state).
Proof.
  split; [reflexivity|].
  apply (package_call_on_bound_context json_state zerolog.Background 1%nat
           (new_logger DebugLevel) SevWarn ["main.go:10"] "m" [] eq_refl).
  left. discriminate.
Defined.

(** X13.  On a context with no logger bound, in a state the process can
    reach, the package-level [Debug], [Info] and [Warn] write nothing and
    return, whatever the global level; [Error], [Fatal] and [Panic] write
    one event to standard output unless the global level is above their
    severity. *)
Theorem unbound_context_logs_from_error_up (s : State)
    (ctx : zerolog.GoContext) (sv : Severity) (cs : list Frame)
    (msg : string) (kvs : list Value) :
  reachable s ->
  zerolog.ctxLogger ctx = None ->
  (severity_level sv < ErrorLevel ->
   emitted (package_call sv cs ctx msg kvs) s = [] /\
   stopped (package_call sv cs ctx msg kvs s) = None) /\
  (ErrorLevel <= severity_level sv ->
   zerolog.gLevel (globals s) <= severity_level sv ->
   exists buf,
     emitted (package_call sv cs ctx msg kvs) s =
       [Logged (zerolog.mkWritten zerolog.Stdout (severity_level sv) buf)]).
Proof.
  intros Hr Hctx. destruct (reachable_defaults s Hr) as (Hd & _).
  assert (Hz : zerolog.Ctx (globals s) ctx = new_logger ErrorLevel)
    by (unfold zerolog.Ctx; by rewrite Hctx, Hd).
  assert (He : emitted (package_call sv cs ctx msg kvs) s =
               emitted (Logger_call sv (package_frame sv :: cs)
                          (length (heap s)) msg kvs)
                 (set_heap (heap s ++ [new_logger ErrorLevel]) s)).
  { unfold emitted. by rewrite package_call_eq, Hz. }
  split.
  - intros Hlt. split.
    + rewrite He.
      rewrite (Logger_call_emitted _ _ (new_logger ErrorLevel)) by apply alloc_new.
      by rewrite should_false_level by (simpl; lia).
    + rewrite package_call_eq, Hz.
      rewrite (Logger_call_stopped _ _ (new_logger ErrorLevel)) by apply alloc_new.
      by destruct sv.
  - intros Hle Hg. rewrite He.
    rewrite (Logger_call_emitted _ _ (new_logger ErrorLevel)) by apply alloc_new.
    rewrite should_true by (simpl; lia). by eexists.
Qed.

(** The theorem right after [init], for the background context: [Info] is
    silent, [Error] is written. *)
Lemma unbound_context_logs_from_error_up_witness :
  reachable started_state /\
  zerolog.ctxLogger zerolog.Background = None /\
  emitted (package_call SevInfo ["main.go:10"] zerolog.Background "m" [])
    started_state = [] /\
  exists buf,
    emitted (package_call (SevError None) ["main.go:11"] zerolog.Background
               "m" []) started_state =
      [Logged (zerolog.mkWritten zerolog.Stdout ErrorLevel buf)].
Proof.
  split; [exact reachable_start|]. split; [reflexivity|]. split.
  - apply (proj1 (unbound_context_logs_from_error_up started_state
                    zerolog.Background SevInfo ["main.go:10"] "m" []
                    reachable_start eq_refl)).
    reflexivity.
  - apply (proj2 (unbound_context_logs_from_error_up started_state
                    zerolog.Background (SevError None) ["main.go:11"] "m" []
                    reachable_start eq_refl)); discriminate.
Defined.

(** ** Further properties: what no call does *)

(** X14.  No call removes or rewrites what was put out before, and no
    call changes or frees a Logger that exists, except an output option
    applied to that very Logger, which replaces its writer; Logger
    addresses handed out stay valid. *)
Theorem calls_only_add (c : Call) (s : State) :
  (exists X, out (exec c s) = out s ++ X) /\
  (forall l z, heap s !! l = Some z ->
     heap (exec c s) !! l = Some z \/
     exists o, c = CallOption o l /\ heap (exec c s) !! l = Some (rebound o z)).
Proof.
  assert (Hnil : out s = out s ++ []) by (by rewrite app_nil_r).
  destruct c; simpl.
  - destruct (New_eq level os s) as (z' & -> & _). simpl.
    split; [by exists []|]. intros l z Hl. left. by apply lookup_app_l_Some.
  - split; [by exists []|]. intros l z Hl. by left.
  - split; [by exists []|]. intros l z Hl. by left.
  - split; [by exists []|]. intros l z Hl. by left.
  - unfold Logger_Level, mbind, M_bind, deref.
    destruct (heap s !! l) as [z0|]; simpl;
      (split; [by exists []|]); intros l' z Hl; left; [|done].
    by apply lookup_app_l_Some.
  - unfold Logger_With, mbind, M_bind, deref.
    destruct (heap s !! l) as [z0|]; simpl;
      (split; [by exists []|]); intros l' z Hl; left; [|done].
    by apply lookup_app_l_Some.
  - destruct (Logger_call_final s l sv cs msg kvs) as (X & ->). simpl.
    split; [by exists X|]. intros l' z Hl. by left.
  - rewrite package_call_eq.
    destruct (Logger_call_final
                (set_heap (heap s ++ [zerolog.Ctx (globals s) ctx]) s)
                (length (heap s)) sv (package_frame sv :: cs) msg kvs)
      as (X & ->). simpl.
    split; [by exists X|]. intros l z Hl. left. by apply lookup_app_l_Some.
  - unfold ParseLevel.
    destruct (zerolog.ParseLevel levelStr) as [v [e|]]; simpl.
    { split; [by exists []|]. intros l z Hl. by left. }
    destruct (v <? minAllowedLevel); simpl.
    { split; [by eexists|]. intros l z Hl. by left. }
    destruct (maxAllowedLevel <? v); simpl.
    { split; [by eexists|]. intros l z Hl. by left. }
    split; [by exists []|]. intros l z Hl. by left.
  - unfold ToContext, mbind, M_bind, deref.
    destruct (heap s !! l) as [z0|]; simpl;
      (split; [by exists []|]); intros l' z Hl; by left.
  - split; [by exists []|]. intros l z Hl. left. by apply lookup_app_l_Some.
  - destruct (heap s !! l) as [z0|] eqn:Hl0.
    + rewrite (output_option_eq o s l z0) by done. simpl.
      split; [by exists []|]. intros l' z Hl.
      destruct (decide (l = l')) as [<-|Hne].
      * right. exists o. split; [done|].
        rewrite Hl0 in Hl. injection Hl as <-.
        apply list_lookup_insert_eq. by apply lookup_lt_Some in Hl0.
      * left. by rewrite list_lookup_insert_ne.
    + assert (output_option o l s = Halt nilDeref s) as ->.
      { destruct o; unfold output_option, WithPlainText, WriteToFile, mbind,
          M_bind, deref; by rewrite Hl0. }
      simpl. split; [by exists []|]. intros l' z Hl. by left.
Qed.

(** ** Further properties: the caller field on each way in *)

(** X15.  An event that a package-level function emits has a caller field
    exactly when the caller flag is set (and the call has a call site on
    the stack), and the field then names the place the package-level
    function was called from. *)
Theorem package_call_names_its_call_site (s : State)
    (ctx : zerolog.GoContext) (sv : Severity) (cs : list Frame)
    (msg : string) (kvs : list Value) (wr : zerolog.Written) (fr : Frame) :
  In (Logged wr) (emitted (package_call sv cs ctx msg kvs) s) ->
  (In (zerolog.FCaller fr) (zerolog.wr_buf wr) <->
   callerEnabled s = true /\ cs !! 0%nat = Some fr).
Proof.
  intros Hin. exact (caller_field_of_package_call s ctx sv cs msg kvs wr fr Hin).
Qed.

(** The theorem at [Info] on the context of the test, called at
    [handler.go:10]. *)
Lemma package_call_names_its_call_site_witness :
  In (Logged (zerolog.mkWritten zerolog.Stdout InfoLevel
                [zerolog.FLevel InfoLevel; zerolog.FCaller "handler.go:10";
                 zerolog.FTime; zerolog.FMessage "m"]))
    (emitted (package_call SevInfo ["handler.go:10"; "server.go:20"] bound_ctx
                "m" []) caller_on_state) /\
  (In (zerolog.FCaller "handler.go:10")
     [zerolog.FLevel InfoLevel; zerolog.FCaller "handler.go:10";
      zerolog.FTime; zerolog.FMessage "m"] <->
   callerEnabled caller_on_state = true /\
   ["handler.go:10"; "server.go:20"] !! 0%nat = Some "handler.go:10").
Proof.
  split; [left; reflexivity|].
  apply (package_call_names_its_call_site caller_on_state bound_ctx SevInfo
           ["handler.go:10"; "server.go:20"] "m" []
           (zerolog.mkWritten zerolog.Stdout InfoLevel
              [zerolog.FLevel InfoLevel; zerolog.FCaller "handler.go:10";
               zerolog.FTime; zerolog.FMessage "m"]) "handler.go:10").
  left; reflexivity.
Defined.

(** X16.  An event that a method called directly emits has a caller field
    exactly when the caller flag is set and the function that made the
    call has a caller of its own; the field names that caller, the second
    frame of the stack, not the place of the call. *)
Theorem method_names_second_frame (s : State) (l : Logger)
    (z : zerolog.Logger) (sv : Severity) (cs : list Frame) (msg : string)
    (kvs : list Value) (wr : zerolog.Written) (fr : Frame) :
  heap s !! l = Some z ->
  In (Logged wr) (emitted (Logger_call sv cs l msg kvs) s) ->
  (In (zerolog.FCaller fr) (zerolog.wr_buf wr) <->
   callerEnabled s = true /\ cs !! 1%nat = Some fr) /\
  ((length cs <= 1)%nat ->
   forall fr', ~ In (zerolog.FCaller fr') (zerolog.wr_buf wr)).
Proof.
  intros Hl Hin.
  destruct (emitted_event s l z sv cs msg kvs wr Hl Hin) as (_ & ->).
  split; [apply caller_in_event_buf|].
  intros Hlen fr' Hfr.
  apply caller_in_event_buf in Hfr as (_ & Hfr).
  apply lookup_lt_Some in Hfr. lia.
Qed.

(** The theorem at [Info] called at [handler.go:10] from a function called
    at [server.go:20]. *)
Lemma method_names_second_frame_witness :
  heap caller_on_state !! 1%nat = Some (new_logger DebugLevel) /\
  In (Logged (zerolog.mkWritten zerolog.Stdout InfoLevel
                [zerolog.FLevel InfoLevel; zerolog.FCaller "server.go:20";
                 zerolog.FTime; zerolog.FMessage "m"]))
    (emitted (Logger_call SevInfo ["handler.go:10"; "server.go:20"] 1%nat
                "m" []) caller_on_state) /\
  (In (zerolog.FCaller "server.go:20")
     [zerolog.FLevel InfoLevel; zerolog.FCaller "server.go:20";
      zerolog.FTime; zerolog.FMessage "m"] <->
   callerEnabled caller_on_state = true /\
   ["handler.go:10"; "server.go:20"] !! 1%nat = Some "server.go:20").
Proof.
  split; [reflexivity|]. split; [left; reflexivity|].
  apply (proj1 (method_names_second_frame caller_on_state 1%nat
                  (new_logger DebugLevel) SevInfo
                  ["handler.go:10"; "server.go:20"] "m" []
                  (zerolog.mkWritten zerolog.Stdout InfoLevel
                     [zerolog.FLevel InfoLevel; zerolog.FCaller "server.go:20";
                      zerolog.FTime; zerolog.FMessage "m"])
                  "server.go:20" eq_refl (or_introl eq_refl))).
Defined.

(** ** Further properties: the test helpers *)

Lemma insert_last (h : list zerolog.Logger) (a b : zerolog.Logger) :
  <[length h := b]> (h ++ [a]) = h ++ [b].
Proof.
  replace (length h) with (length h + 0)%nat by lia. by rewrite insert_app_r.
Qed.

Lemma getTestData_eq (buf : zerolog.Writer) (s : State) :
  getTestData buf s =
    Ret (zerolog.WithLogger zerolog.Background (test_logger buf), buf)
      (set_heap (heap s ++ [test_logger buf]) s).
Proof.
  unfold getTestData, New, ToContext. cbn [applyOptions].
  unfold testJsonEnable, mbind, M_bind, mret, M_ret, deref, store.
  rewrite alloc_eq. simpl.
  repeat (first [rewrite list_lookup_middle by done | rewrite insert_last];
          simpl).
  reflexivity.
Qed.

Lemma getTestDataTextPlain_eq (buf : zerolog.Writer) (s : State) :
  getTestDataTextPlain buf s =
    Ret (zerolog.WithLogger zerolog.Background
           (test_logger (zerolog.ConsoleWriter buf)), buf)
      (set_heap (heap s ++ [test_logger (zerolog.ConsoleWriter buf)]) s).
Proof.
  unfold getTestDataTextPlain, New, ToContext. cbn [applyOptions].
  unfold testTextPlainEnable, mbind, M_bind, mret, M_ret, deref, store.
  rewrite alloc_eq. simpl.
  repeat (first [rewrite list_lookup_middle by done | rewrite insert_last];
          simpl).
  reflexivity.
Qed.

(** X17.  On the context [getTestData] returns for a buffer, a
    package-level call of any of the six severities writes exactly one
    event, to that buffer, unless the global level is above the severity:
    the level, the stack and the error (for [Error]), the fields of the
    call (in an [Error] call made with the stack-trace flag set, each
    error-valued field is followed by a stack key), the caller, the time,
    the message.  With [getTestDataTextPlain]
    the same event goes to a console writer over the buffer.  Building
    the context writes nothing. *)
Theorem test_data_logs_to_the_buffer (buf : zerolog.Writer) (s : State)
    (sv : Severity) (cs : list Frame) (msg : string) (kvs : list Value) :
  zerolog.gLevel (globals s) <= severity_level sv ->
  (exists ctx s',
     getTestData buf s = Ret (ctx, buf) s' /\ out s' = out s /\
     same_settings s s' /\
     emitted (package_call sv cs ctx msg kvs) s' =
       [Logged (zerolog.mkWritten buf (severity_level sv)
                  (zerolog.FLevel (severity_level sv)
                   :: stack_fields s sv ++ error_fields sv
                   ++ call_fields s sv kvs
                   ++ caller_fields s (package_frame sv :: cs)
                   ++ zerolog.FTime :: message_fields msg))]) /\
  (exists ctx s',
     getTestDataTextPlain buf s = Ret (ctx, buf) s' /\ out s' = out s /\
     same_settings s s' /\
     emitted (package_call sv cs ctx msg kvs) s' =
       [Logged (zerolog.mkWritten (zerolog.ConsoleWriter buf) (severity_level sv)
                  (zerolog.FLevel (severity_level sv)
                   :: stack_fields s sv ++ error_fields sv
                   ++ call_fields s sv kvs
                   ++ caller_fields s (package_frame sv :: cs)
                   ++ zerolog.FTime :: message_fields msg))]).
Proof.
  intros Hg.
  assert (Hrun : forall (wr : zerolog.Writer) (s' : State),
            same_settings s s' -> out s' = out s ->
            emitted (package_call sv cs
                       (zerolog.WithLogger zerolog.Background (test_logger wr))
                       msg kvs) s' =
            [Logged (zerolog.mkWritten wr (severity_level sv)
                       (zerolog.FLevel (severity_level sv)
                        :: stack_fields s sv ++ error_fields sv
                        ++ call_fields s sv kvs
                        ++ caller_fields s (package_frame sv :: cs)
                        ++ zerolog.FTime :: message_fields msg))]).
  { intros wr s' Hs Ho.
    assert (Hs2 : same_settings s
                    (set_heap (heap s' ++ [test_logger wr]) s')) by exact Hs.
    unfold emitted. rewrite package_call_eq.
    change (zerolog.Ctx (globals s')
              (zerolog.WithLogger zerolog.Background (test_logger wr)))
      with (test_logger wr).
    change (emitted (Logger_call sv (package_frame sv :: cs) (length (heap s'))
                       msg kvs) (set_heap (heap s' ++ [test_logger wr]) s') =
            [Logged (zerolog.mkWritten wr (severity_level sv)
                       (zerolog.FLevel (severity_level sv)
                        :: stack_fields s sv ++ error_fields sv
                        ++ call_fields s sv kvs
                        ++ caller_fields s (package_frame sv :: cs)
                        ++ zerolog.FTime :: message_fields msg))]).
    rewrite (Logger_call_emitted _ _ (test_logger wr)) by apply alloc_new.
    rewrite should_true.
    - by rewrite (event_buf_ext s _ _ _ _ _ _ Hs2).
    - simpl. by destruct sv.
    - destruct Hs as (_ & _ & Hgl). simpl. rewrite Hgl. exact Hg. }
  split.
  - rewrite getTestData_eq. do 2 eexists. split; [reflexivity|].
    split; [done|]. split; [done|]. by apply Hrun.
  - rewrite getTestDataTextPlain_eq. do 2 eexists. split; [reflexivity|].
    split; [done|]. split; [done|]. by apply Hrun.
Qed.

(** The theorem at the call of the first test: [Debug] with one pair. *)
Lemma test_data_logs_to_the_buffer_witness :
  zerolog.gLevel (globals started_state) <= severity_level SevDebug /\
  exists ctx s',
    getTestData (zerolog.FileWriter 0) started_state =
      Ret (ctx, zerolog.FileWriter 0) s' /\
    out s' = out started_state /\ same_settings started_state s' /\
    emitted (package_call SevDebug ["logger_test.go:86"] ctx "debugMsg"
               [VString "with_field_1"; VString "test"]) s' =
      [Logged (zerolog.mkWritten (zerolog.FileWriter 0) DebugLevel
                 (zerolog.FLevel DebugLevel
                  :: stack_fields started_state SevDebug ++ error_fields SevDebug
                  ++ call_fields started_state SevDebug
                       [VString "with_field_1"; VString "test"]
                  ++ caller_fields started_state
                       (package_frame SevDebug :: ["logger_test.go:86"])
                  ++ zerolog.FTime :: message_fields "debugMsg"))].
Proof.
  split; [discriminate|].
  apply (proj1 (test_data_logs_to_the_buffer (zerolog.FileWriter 0)
                  started_state SevDebug ["logger_test.go:86"] "debugMsg"
                  [VString "with_field_1"; VString "test"]
                  ltac:(discriminate))).
Defined.

(** ** Further properties: switching the flags off *)

Lemma no_caller_when_off (s : State) (l : Logger) (sv : Severity)
    (cs : list Frame) (msg : string) (kvs : list Value) (wr : zerolog.Written)
    (fr : Frame) :
  callerEnabled s = false ->
  In (Logged wr) (emitted (Logger_call sv cs l msg kvs) s) ->
  ~ In (zerolog.FCaller fr) (zerolog.wr_buf wr).
Proof.
  intros Hoff Hin Hfr. destruct (heap s !! l) as [z|] eqn:Hl.
  - destruct (emitted_event s l z sv cs msg kvs wr Hl Hin) as (_ & ->).
    apply caller_in_event_buf in Hfr as (Hon & _). congruence.
  - unfold emitted in Hin. rewrite Logger_call_nil in Hin by done.
    simpl in Hin. by rewrite drop_all in Hin.
Qed.

Lemma no_stack_when_off (s : State) (l : Logger) (sv : Severity)
    (cs : list Frame) (msg : string) (kvs : list Value) (wr : zerolog.Written)
    (st : list Frame) :
  stacktraceEnabled s = false ->
  In (Logged wr) (emitted (Logger_call sv cs l msg kvs) s) ->
  ~ In (zerolog.FStack st) (zerolog.wr_buf wr).
Proof.
  intros Hoff Hin Hst. destruct (heap s !! l) as [z|] eqn:Hl.
  - destruct (emitted_event s l z sv cs msg kvs wr Hl Hin) as (_ & ->).
    apply stack_in_event_buf in Hst. unfold stack_fields in Hst.
    rewrite Hoff in Hst. by destruct sv.
  - unfold emitted in Hin. rewrite Logger_call_nil in Hin by done.
    simpl in Hin. by rewrite drop_all in Hin.
Qed.

Lemma no_stack_entry_when_off (s : State) (l : Logger) (sv : Severity)
    (cs : list Frame) (msg : string) (kvs : list Value) (wr : zerolog.Written)
    (f : zerolog.Field) :
  stacktraceEnabled s = false ->
  In (Logged wr) (emitted (Logger_call sv cs l msg kvs) s) ->
  In f (zerolog.wr_buf wr) -> is_stack_field f = false.
Proof.
  intros Hoff Hin Hf. destruct f as [| |st| | | | |o]; try done.
  - by destruct (no_stack_when_off s l sv cs msg kvs wr st Hoff Hin).
  - destruct (heap s !! l) as [z|] eqn:Hl.
    + destruct (emitted_event s l z sv cs msg kvs wr Hl Hin) as (_ & ->).
      apply fieldStack_in_event_buf in Hf. unfold call_fields in Hf.
      apply fieldStack_in_eventFields in Hf as (Hflag & _).
      apply stack_flag_true in Hflag as (err & _ & Hon). congruence.
    + unfold emitted in Hin. rewrite Logger_call_nil in Hin by done.
      simpl in Hin. by rewrite drop_all in Hin.
Qed.

(** X18.  The two flags are process-wide and the last call decides.  After
    [SetCallerEnabled false] no event has a caller field, and after
    [SetStacktraceEnabled false] no event has a stack field, neither for
    the error given to [Error] nor after an error-valued field, whichever
    Logger, method or package-level function emits it and whatever the
    flag was before; each setter leaves the other flag, the global level,
    the Loggers and the output as they were. *)
Theorem flags_switched_off (s : State) (sv : Severity) (cs : list Frame)
    (msg : string) (kvs : list Value) (wr : zerolog.Written) :
  (forall l fr,
     In (Logged wr) (emitted (Logger_call sv cs l msg kvs)
                       (final (SetCallerEnabled false s))) ->
     ~ In (zerolog.FCaller fr) (zerolog.wr_buf wr)) /\
  (forall ctx fr,
     In (Logged wr) (emitted (package_call sv cs ctx msg kvs)
                       (final (SetCallerEnabled false s))) ->
     ~ In (zerolog.FCaller fr) (zerolog.wr_buf wr)) /\
  (forall l st,
     In (Logged wr) (emitted (Logger_call sv cs l msg kvs)
                       (final (SetStacktraceEnabled false s))) ->
     ~ In (zerolog.FStack st) (zerolog.wr_buf wr)) /\
  (forall ctx st,
     In (Logged wr) (emitted (package_call sv cs ctx msg kvs)
                       (final (SetStacktraceEnabled false s))) ->
     ~ In (zerolog.FStack st) (zerolog.wr_buf wr)) /\
  (forall l f,
     In (Logged wr) (emitted (Logger_call sv cs l msg kvs)
                       (final (SetStacktraceEnabled false s))) ->
     In f (zerolog.wr_buf wr) -> is_stack_field f = false) /\
  (forall ctx f,
     In (Logged wr) (emitted (package_call sv cs ctx msg kvs)
                       (final (SetStacktraceEnabled false s))) ->
     In f (zerolog.wr_buf wr) -> is_stack_field f = false) /\
  (forall b,
     stacktraceEnabled (final (SetCallerEnabled b s)) = stacktraceEnabled s /\
     callerEnabled (final (SetStacktraceEnabled b s)) = callerEnabled s /\
     globals (final (SetCallerEnabled b s)) = globals s /\
     globals (final (SetStacktraceEnabled b s)) = globals s /\
     heap (final (SetCallerEnabled b s)) = heap s /\
     heap (final (SetStacktraceEnabled b s)) = heap s /\
     out (final (SetCallerEnabled b s)) = out s /\
     out (final (SetStacktraceEnabled b s)) = out s).
Proof.
  split; [|split; [|split; [|split; [|split; [|split]]]]].
  - intros l fr. by apply no_caller_when_off.
  - intros ctx fr. unfold emitted. rewrite package_call_eq.
    exact (no_caller_when_off
             (set_heap (heap (final (SetCallerEnabled false s))
                        ++ [zerolog.Ctx (globals (final (SetCallerEnabled false s))) ctx])
                (final (SetCallerEnabled false s)))
             (length (heap (final (SetCallerEnabled false s)))) sv
             (package_frame sv :: cs) msg kvs wr fr eq_refl).
  - intros l st. by apply no_stack_when_off.
  - intros ctx st. unfold emitted. rewrite package_call_eq.
    exact (no_stack_when_off
             (set_heap (heap (final (SetStacktraceEnabled false s))
                        ++ [zerolog.Ctx (globals (final (SetStacktraceEnabled false s))) ctx])
                (final (SetStacktraceEnabled false s)))
             (length (heap (final (SetStacktraceEnabled false s)))) sv
             (package_frame sv :: cs) msg kvs wr st eq_refl).
  - intros l f. by apply no_stack_entry_when_off.
  - intros ctx f. unfold emitted. rewrite package_call_eq.
    exact (no_stack_entry_when_off
             (set_heap (heap (final (SetStacktraceEnabled false s))
                        ++ [zerolog.Ctx (globals (final (SetStacktraceEnabled false s))) ctx])
                (final (SetStacktraceEnabled false s)))
             (length (heap (final (SetStacktraceEnabled false s)))) sv
             (package_frame sv :: cs) msg kvs wr f eq_refl).
  - intros b. by repeat split.
Qed.

(** The theorem after the caller flag was set and then unset: the event of
    an [Info] call has no caller field. *)
Lemma flags_switched_off_witness :
  In (Logged (zerolog.mkWritten zerolog.Stdout InfoLevel
                [zerolog.FLevel InfoLevel; zerolog.FTime; zerolog.FMessage "m"]))
    (emitted (Logger_call SevInfo ["handler.go:10"; "server.go:20"] 1%nat
                "m" []) (final (SetCallerEnabled false caller_on_state))) /\
  ~ In (zerolog.FCaller "server.go:20")
      [zerolog.FLevel InfoLevel; zerolog.FTime; zerolog.FMessage "m"].
Proof.
  split; [left; reflexivity|].
  apply (proj1 (flags_switched_off caller_on_state SevInfo
                  ["handler.go:10"; "server.go:20"] "m" []
                  (zerolog.mkWritten zerolog.Stdout InfoLevel
                     [zerolog.FLevel InfoLevel; zerolog.FTime;
                      zerolog.FMessage "m"]))
           1%nat "server.go:20").
  left; reflexivity.
Defined.

(** ** Further properties: package-level functions and methods *)

Lemma forwarded_call_eq (sv : Severity) (cs : list Frame)
    (ctx : zerolog.GoContext) (msg : string) (kvs : list Value) (s : State) :
  forwarded_call sv cs ctx msg kvs s =
    Logger_call sv cs (length (heap s)) msg kvs
      (set_heap (heap s ++ [zerolog.Ctx (globals s) ctx]) s).
Proof. reflexivity. Qed.

Lemma event_buf_without_caller (s : State) (z : zerolog.Logger)
    (sv : Severity) (cs cs' : list Frame) (msg : string) (kvs : list Value) :
  List.filter (fun f => negb (is_caller_field f)) (event_buf s z sv cs msg kvs) =
  List.filter (fun f => negb (is_caller_field f)) (event_buf s z sv cs' msg kvs).
Proof.
  assert (Hc : forall c, List.filter (fun f => negb (is_caller_field f))
                           (caller_fields s c) = []).
  { intros c. unfold caller_fields. destruct (callerEnabled s); [|done].
    by destruct (c !! 1%nat). }
  unfold event_buf. simpl. rewrite !List.filter_app, !Hc. reflexivity.
Qed.

(** X19.  A package-level function and the method of the same name on
    [FromContext ctx], called with the same arguments at the same place,
    end the same way, write the same number of events to the same writer
    at the same level, and the events agree in every entry but the caller;
    they leave the same Loggers and settings behind.  With caller
    annotation off the two calls are equal outright. *)
Theorem package_call_is_method_up_to_caller (sv : Severity) (cs : list Frame)
    (ctx : zerolog.GoContext) (msg : string) (kvs : list Value) (s : State) :
  stopped (package_call sv cs ctx msg kvs s) =
    stopped (forwarded_call sv cs ctx msg kvs s) /\
  map without_caller (emitted (package_call sv cs ctx msg kvs) s) =
    map without_caller (emitted (forwarded_call sv cs ctx msg kvs) s) /\
  heap (final (package_call sv cs ctx msg kvs s)) =
    heap (final (forwarded_call sv cs ctx msg kvs s)) /\
  same_settings (final (package_call sv cs ctx msg kvs s))
    (final (forwarded_call sv cs ctx msg kvs s)) /\
  (callerEnabled s = false ->
   package_call sv cs ctx msg kvs s = forwarded_call sv cs ctx msg kvs s).
Proof.
  pose proof (alloc_new (zerolog.Ctx (globals s) ctx) s) as Hl.
  split; [|split; [|split; [|split]]].
  - rewrite package_call_eq, forwarded_call_eq.
    by rewrite !(Logger_call_stopped _ _ _ _ _ _ _ Hl).
  - unfold emitted. rewrite package_call_eq, forwarded_call_eq.
    change (map without_caller
              (emitted (Logger_call sv (package_frame sv :: cs)
                          (length (heap s)) msg kvs)
                 (set_heap (heap s ++ [zerolog.Ctx (globals s) ctx]) s)) =
            map without_caller
              (emitted (Logger_call sv cs (length (heap s)) msg kvs)
                 (set_heap (heap s ++ [zerolog.Ctx (globals s) ctx]) s))).
    rewrite !(Logger_call_emitted _ _ _ _ _ _ _ Hl).
    destruct (zerolog.should _ _ _); [|done].
    cbn [map]. unfold without_caller.
    cbn [zerolog.wr_buf zerolog.wr_w zerolog.wr_level].
    by rewrite (event_buf_without_caller _ _ _ (package_frame sv :: cs) cs).
  - rewrite package_call_eq, forwarded_call_eq.
    destruct (Logger_call_final
                (set_heap (heap s ++ [zerolog.Ctx (globals s) ctx]) s)
                (length (heap s)) sv (package_frame sv :: cs) msg kvs)
      as (X & ->).
    by destruct (Logger_call_final
                   (set_heap (heap s ++ [zerolog.Ctx (globals s) ctx]) s)
                   (length (heap s)) sv cs msg kvs) as (Y & ->).
  - rewrite package_call_eq, forwarded_call_eq.
    destruct (Logger_call_final
                (set_heap (heap s ++ [zerolog.Ctx (globals s) ctx]) s)
                (length (heap s)) sv (package_frame sv :: cs) msg kvs)
      as (X & ->).
    by destruct (Logger_call_final
                   (set_heap (heap s ++ [zerolog.Ctx (globals s) ctx]) s)
                   (length (heap s)) sv cs msg kvs) as (Y & ->).
  - intros Hoff. rewrite package_call_eq, forwarded_call_eq.
    rewrite !(Logger_call_eq _ _ _ _ _ _ _ Hl).
    unfold event_buf, caller_fields. simpl. by rewrite Hoff.
Qed.

(** The theorem at an [Error] call on a bound context, caller annotation
    off: the two calls are equal. *)
Lemma package_call_is_method_up_to_caller_witness :
  callerEnabled stack_on_state = false /\
  package_call (SevError (Some traced_error)) ["handler.go:10"; "server.go:20"]
    bound_ctx "m" cause_fields stack_on_state =
  forwarded_call (SevError (Some traced_error))
    ["handler.go:10"; "server.go:20"] bound_ctx "m" cause_fields
    stack_on_state.
Proof.
  split; [reflexivity|].
  apply (proj2 (proj2 (proj2 (proj2
           (package_call_is_method_up_to_caller
              (SevError (Some traced_error))
              ["handler.go:10"; "server.go:20"] bound_ctx "m" cause_fields
              stack_on_state))))).
  reflexivity.
Defined.
